(** * SakuraDevClass backend: the request pipeline of backend/src/server.js

    A shallow embedding of the Express application assembled in
    [server.js]: the values handlers exchange (JavaScript/JSON values),
    the layer stack in registration order, the dispatch loop of the
    Express 4 router (the ['*'] mount on line 186 fixes the major version),
    and the handlers themselves, followed by the properties the
    specification states about them.

    The file is configuration and handlers on top of its dependencies
    (express, cors, body-parser, express-rate-limit, helmet, compression).
    Each dependency is modelled as far as the file configures it; the
    comment on each such definition says where its behaviour is taken
    from. Handlers are functions in a state monad over [World], which
    holds what they can reach: [process.env], the limiter's store, the
    console, the uploads directory, and the [req]/[res] pair of the
    exchange being served. *)

From Stdlib Require Import ZArith QArith.QArith_base Ascii String List Bool Lia.
From stdpp Require Import base option list strings gmap.

Local Set Warnings "-register-all".
Local Open Scope Z_scope.
Local Open Scope string_scope.

(** ** JavaScript values *)

Module JS.

(** A JavaScript Number: a finite value (a double is a dyadic rational;
    [-0] is identified with [0], which neither [ToBoolean] nor
    [JSON.stringify] can tell apart), an infinity, or [NaN]. *)
Inductive number : Type :=
  | Finite (q : Q)
  | Infinity (negative : bool)
  | NaN.

Definition of_Z (z : Z) : number := Finite (inject_Z z).
Definition of_nat (n : nat) : number := of_Z (Z.of_nat n).

Inductive value : Type :=
  | VUndefined
  | VNull
  | VBool (b : bool)
  | VNum (n : number)
  | VStr (s : string)
  | VArr (items : list value)
  | VObj (fields : list (string * value)).

(** [ToBoolean] (ECMA-262, 7.1.2): what [!x] and [||] test. *)
Definition to_boolean (v : value) : bool :=
  match v with
  | VUndefined | VNull => false
  | VBool b => b
  | VNum (Finite q) => negb (Qnum q =? 0)%Z
  | VNum (Infinity _) => true
  | VNum NaN => false
  | VStr s => negb (String.eqb s "")
  | VArr _ | VObj _ => true
  end.

Definition falsy (v : value) : bool := negb (to_boolean v).

(** First binding of [k] in a field list (an object holds one per key). *)
Fixpoint lookup_field (k : string) (fields : list (string * value)) : option value :=
  match fields with
  | [] => None
  | (k', v) :: rest => if String.eqb k k' then Some v else lookup_field k rest
  end.

(** Property read [o.k] for the own properties of an object literal or a
    parsed JSON object; any other key or receiver reads [undefined]. *)
Definition get (o : value) (k : string) : value :=
  match o with
  | VObj fields => default VUndefined (lookup_field k fields)
  | _ => VUndefined
  end.

Definition has_own (o : value) (k : string) : bool :=
  match o with
  | VObj fields => bool_decide (is_Some (lookup_field k fields))
  | _ => false
  end.

(** [a || b] on strings read from [process.env] (absent reads [undefined]). *)
Definition or_default (a : option string) (b : string) : string :=
  match a with
  | Some s => if String.eqb s "" then b else s
  | None => b
  end.

(** What [JSON.stringify] keeps of a value, as [res.json] sends it:
    members bound to [undefined] are dropped, [undefined] array items and
    non-finite numbers become [null]. *)
Fixpoint wire (v : value) : value :=
  match v with
  | VNum (Infinity _) | VNum NaN => VNull
  | VArr items =>
      VArr (map (fun x => match x with VUndefined => VNull | _ => wire x end) items)
  | VObj fields =>
      VObj ((fix members (l : list (string * value)) : list (string * value) :=
               match l with
               | [] => []
               | (k, VUndefined) :: rest => members rest
               | (k, x) :: rest => (k, wire x) :: members rest
               end) fields)
  | _ => v
  end.

End JS.

Import JS.

(** ** Requests, responses and the state handlers act on *)

Inductive Method : Type := GET | HEAD | POST | PUT | PATCH | DELETE | OPTIONS.

Definition method_eqb (a b : Method) : bool :=
  match a, b with
  | GET, GET | HEAD, HEAD | POST, POST | PUT, PUT
  | PATCH, PATCH | DELETE, DELETE | OPTIONS, OPTIONS => true
  | _, _ => false
  end.

Definition method_name (m : Method) : string :=
  match m with
  | GET => "GET" | HEAD => "HEAD" | POST => "POST" | PUT => "PUT"
  | PATCH => "PATCH" | DELETE => "DELETE" | OPTIONS => "OPTIONS"
  end.

(** A thrown JavaScript error: [err.name], [err.message], [err.stack] and
    the [err.status] some middleware attach. Of a stack trace the model
    keeps the first line; the frames below it name files of the
    installation. *)
Record Error : Type := mkError {
  err_name : string;
  err_message : string;
  err_stack : string;
  err_status : option Z
}.

(** [Error.prototype.toString]. *)
Definition to_string (err : Error) : string :=
  if String.eqb (err_name err) "" then err_message err
  else if String.eqb (err_message err) "" then err_name err
  else err_name err ++ ": " ++ err_message err.

(** [err.stack || err.toString()], the text Express and finalhandler show
    of an error. *)
Definition error_text (err : Error) : string :=
  if String.eqb (err_stack err) "" then to_string err else err_stack err.

(** The request entity as the body parsers of lines 37-38 will see it.
    Parsing itself belongs to [body-parser]; a payload is given by what the
    parser makes of it. *)
Inductive Payload : Type :=
  | NoPayload                 (* no entity, or a content type no parser claims *)
  | JsonPayload (v : value)   (* application/json text that parses to [v] *)
  | FormPayload (v : value)   (* urlencoded text that parses to [v] *)
  | BadJson (e : Error)       (* rejected by [express.json]: malformed, over 10mb *)
  | BadForm (e : Error).      (* rejected by [express.urlencoded] *)

(** A request carries no conditional ([If-None-Match],
    [If-Modified-Since]) and no [Range] header. *)
Record Request : Type := mkRequest {
  req_method : Method;
  req_path : string;              (* pathname of the request URL *)
  req_ip : string;                (* source address, the limiter's key *)
  req_origin : option string;     (* Origin header *)
  req_acrh : option string;       (* Access-Control-Request-Headers header *)
  req_payload : Payload;
  req_time : Z;                   (* server clock at arrival, ms since epoch *)
  req_time_iso : string           (* [new Date().toISOString()] at that instant *)
}.

Inductive Body : Type :=
  | BJson (v : value)       (* [res.json(v)] *)
  | BHtml (s : string)      (* an HTML page showing the text [s] *)
  | BReason (status : Z)    (* an HTML page showing the reason phrase of [status] *)
  | BFile (content : string)
  | BEmpty.

(** What the layers write on [res]: the status, the headers of the CORS
    stage (headers derived from the body, such as [Content-Type],
    [Content-Length], [ETag] or [Location], are not tracked) and the body
    handed to [res.json], [res.send] or [res.end]. *)
Record Response : Type := mkResponse {
  res_status : Z;
  res_headers : list (string * string);
  res_body : Body
}.

(** [process.env] as far as the file reads it. *)
Record Env : Type := mkEnv {
  FRONTEND_URL : option string;
  NODE_ENV : option string;
  PORT : option string
}.

(** One line written by [console.log(text, arg)], [console.error(text, arg)]
    or [console.error(text)]. *)
Inductive LogLine : Type :=
  | Stdout (text : string) (arg : value)
  | Stderr (text : string) (arg : value)
  | StderrText (text : string).

(** What [express.static] makes of a request path under its root: a file
    to send, or a directory to redirect to (its path with a slash added). *)
Inductive Found : Type :=
  | File (content : string)
  | Directory (location : string).

(** The limiter's record for one source address. *)
Record Hit : Type := mkHit {
  hit_count : nat;
  hit_reset : Z      (* instant at which the window of this address ends *)
}.

(** What a handler can read or write: the process ([process.env], the
    limiter's store, the console, the directory [uploads/]) and the
    exchange being served ([req.body], the headers set on [res] so far).
    The directory is given by what [serve-static] finds in it for each
    request path: the package decodes and normalises the path, refuses
    paths that leave the root and files whose name starts with a dot,
    looks for [index.html] under a path that ends with a slash, and finds
    either a file, a directory or nothing. *)
Record World : Type := mkWorld {
  env : Env;
  hits : gmap string Hit;
  console : list LogLine;
  uploads : gmap string Found;
  req_body : value;
  out_headers : list (string * string)
}.

Definition with_hits (h : gmap string Hit) (w : World) : World :=
  mkWorld (env w) h (console w) (uploads w) (req_body w) (out_headers w).
Definition with_console (c : list LogLine) (w : World) : World :=
  mkWorld (env w) (hits w) c (uploads w) (req_body w) (out_headers w).
Definition with_body (b : value) (w : World) : World :=
  mkWorld (env w) (hits w) (console w) (uploads w) b (out_headers w).
Definition with_headers (hs : list (string * string)) (w : World) : World :=
  mkWorld (env w) (hits w) (console w) (uploads w) (req_body w) hs.

(** ** The handler monad: state passing over [World] *)

Definition M (A : Type) : Type := World -> A * World.

#[global] Instance M_ret : MRet M := fun A (a : A) (w : World) => (a, w).
#[global] Instance M_bind : MBind M :=
  fun A B (f : A -> M B) (m : M A) (w : World) => let (a, w') := m w in f a w'.

Definition gets {A : Type} (f : World -> A) : M A := fun w => (f w, w).
Definition modify (f : World -> World) : M unit := fun w => (tt, f w).

Definition console_log (text : string) (arg : value) : M unit :=
  modify (fun w => with_console (console w ++ [Stdout text arg]) w).
Definition console_error (text : string) (arg : value) : M unit :=
  modify (fun w => with_console (console w ++ [Stderr text arg]) w).
Definition console_error_text (text : string) : M unit :=
  modify (fun w => with_console (console w ++ [StderrText text]) w).
Definition set_header (k v : string) : M unit :=
  modify (fun w => with_headers (out_headers w ++ [(k, v)]) w).

(** How a layer leaves: it ends the response, calls [next()], or throws
    (equivalently calls [next(err)]). *)
Inductive Outcome : Type :=
  | Respond (status : Z) (body : Body)
  | Next
  | Throw (e : Error).

Definition Handler : Type := Request -> M Outcome.

(** [res.status(s).json(o)]; [res.json(o)] is the case [s = 200]. *)
Definition res_json (s : Z) (o : value) : M Outcome := mret (Respond s (BJson (wire o))).

(** ** Path matching of the Express 4 router

    Express compiles a layer's path with [path-to-regexp] under the
    application's defaults (case-insensitive, non-strict). For the literal
    paths of this file that gives
    - a route [app.get(P, ...)]: [^P\/?$] with flag [i];
    - a mount [app.use(P, ...)]: [^P'\/?(?=\/|$)] with flag [i], where [P']
      is [P] without its trailing slash;
    - [app.use(fn)] and [app.use('*', fn)]: every path; a ['*'] layer
      captures the path it matched and the router decodes the capture
      with [decodeURIComponent]. *)

Definition lower_ascii (c : ascii) : ascii :=
  let n := N_of_ascii c in
  if (65 <=? n)%N && (n <=? 90)%N then ascii_of_N (n + 32) else c.

Fixpoint lower (s : string) : string :=
  match s with
  | EmptyString => EmptyString
  | String c rest => String (lower_ascii c) (lower rest)
  end.

Fixpoint drop_chars (n : nat) (s : string) : string :=
  match n, s with
  | O, _ => s
  | S n', String _ rest => drop_chars n' rest
  | S _, EmptyString => EmptyString
  end.

Fixpoint without_trailing_slash (s : string) : string :=
  match s with
  | EmptyString => EmptyString
  | String c EmptyString => if Ascii.eqb c "/" then EmptyString else s
  | String c rest => String c (without_trailing_slash rest)
  end.

(** At a path separator or at the end: the lookahead [(?=\/|$)]. *)
Definition at_boundary (s : string) : bool :=
  match s with
  | EmptyString => true
  | String c _ => Ascii.eqb c "/"
  end.

Definition route_path_match (pattern path : string) : bool :=
  let p := lower path in
  let q := lower pattern in
  String.eqb p q || String.eqb p (q ++ "/").

Definition mount_match (pattern path : string) : bool :=
  let q := lower (without_trailing_slash pattern) in
  let p := lower path in
  String.prefix q p && at_boundary (drop_chars (String.length q) p).

Inductive Pattern : Type :=
  | Everywhere                          (* [app.use(fn)] *)
  | Star                                (* [app.use('*', fn)] *)
  | Mount (prefix : string)             (* [app.use(prefix, fn)] *)
  | Route (m : Method) (path : string). (* [app.get(path, fn)], [app.post(path, fn)] *)

(** A route registered for GET also serves HEAD. *)
Definition method_match (m : Method) (actual : Method) : bool :=
  method_eqb m actual || (method_eqb m GET && method_eqb actual HEAD).

(** Whether the layer's regular expression (and, for a route, its method)
    accepts the request. *)
Definition pattern_match (p : Pattern) (req : Request) : bool :=
  match p with
  | Everywhere | Star => true
  | Mount prefix => mount_match prefix (req_path req)
  | Route m path => route_path_match path (req_path req) && method_match m (req_method req)
  end.

(** *** Decoding a captured path ([decode_param] of [Layer.match])

    [decodeURIComponent] replaces each escape [%XX] by the octet it names
    and fails with a URIError on a [%] that two hexadecimal digits do not
    follow, and on escaped octets that are not the UTF-8 encoding of a code
    point (ECMA-262, Decode). Only success matters to the router, so the
    scan keeps no output. *)

Definition hex_value (c : ascii) : option N :=
  let n := N_of_ascii c in
  if (48 <=? n)%N && (n <=? 57)%N then Some (n - 48)%N
  else if (65 <=? n)%N && (n <=? 70)%N then Some (n - 55)%N
  else if (97 <=? n)%N && (n <=? 102)%N then Some (n - 87)%N
  else None.

(** Where the scan stands: between two characters, with [need]
    continuation octets of a UTF-8 sequence still due and the next of them
    to lie in [lo, hi]; after a [%]; after a [%] and one digit. *)
Inductive Decoding : Type :=
  | Between (need : nat) (lo hi : N)
  | AfterPercent (need : nat) (lo hi : N)
  | AfterDigit (need : nat) (lo hi : N) (digit : N).

(** One escaped octet: the first of a sequence fixes how many follow and
    where the second must lie (Unicode, table 3-7); a continuation must lie
    in the range set for it. *)
Definition octet (need : nat) (lo hi b : N) : option Decoding :=
  match need with
  | O =>
      if (b <? 128)%N then Some (Between 0 128 191)
      else if (194 <=? b)%N && (b <=? 223)%N then Some (Between 1 128 191)
      else if (b =? 224)%N then Some (Between 2 160 191)
      else if (b =? 237)%N then Some (Between 2 128 159)
      else if (225 <=? b)%N && (b <=? 239)%N then Some (Between 2 128 191)
      else if (b =? 240)%N then Some (Between 3 144 191)
      else if (241 <=? b)%N && (b <=? 243)%N then Some (Between 3 128 191)
      else if (b =? 244)%N then Some (Between 3 128 143)
      else None
  | S n => if (lo <=? b)%N && (b <=? hi)%N then Some (Between n 128 191) else None
  end.

Definition advance (st : Decoding) (c : ascii) : option Decoding :=
  match st with
  | Between need lo hi =>
      if Ascii.eqb c "%" then Some (AfterPercent need lo hi)
      else match need with
           | O => Some st
           | S _ => None
           end
  | AfterPercent need lo hi =>
      match hex_value c with
      | Some d => Some (AfterDigit need lo hi d)
      | None => None
      end
  | AfterDigit need lo hi d =>
      match hex_value c with
      | Some d' => octet need lo hi (16 * d + d')%N
      | None => None
      end
  end.

Fixpoint scan (st : Decoding) (s : string) : bool :=
  match s with
  | EmptyString =>
      match st with
      | Between O _ _ => true
      | _ => false
      end
  | String c rest =>
      match advance st c with
      | Some st' => scan st' rest
      | None => false
      end
  end.

(** [decodeURIComponent] succeeds on [s]. *)
Definition decodable (s : string) : bool := scan (Between 0 128 191) s.

(** The error [decode_param] throws: the URIError of the engine with its
    message replaced and status 400. *)
Definition uri_error (path : string) : Error :=
  mkError "URIError"
          ("Failed to decode param '" ++ path ++ "'")
          ("URIError: Failed to decode param '" ++ path ++ "'")
          (Some 400).

(** What matching raises: the ['*'] layer fails on a path that does not
    decode; the other patterns of this file capture nothing. *)
Definition decode_failure (p : Pattern) (req : Request) : option Error :=
  match p with
  | Star => if decodable (req_path req) then None else Some (uri_error (req_path req))
  | _ => None
  end.

(** A layer of the application's stack. A function of four parameters
    [(err, req, res, next)] is an error handler; any other is a regular
    one. *)
Inductive Layer : Type :=
  | Regular (p : Pattern) (h : Handler)
  | OnError (p : Pattern) (h : Error -> Handler).

Definition layer_pattern (l : Layer) : Pattern :=
  match l with
  | Regular p _ | OnError p _ => p
  end.

(** The status [finalhandler] gives an error: the error's own if it is a
    4xx or 5xx one, else 500 (nothing has set a status on [res] by then). *)
Definition error_status (err : Error) : Z :=
  match err_status err with
  | Some s => if ((400 <=? s) && (s <? 600))%Z then s else 500
  | None => 500
  end.

(** What Express does when the stack is exhausted ([app.handle] with
    [finalhandler] and [logerror]): 404 when nothing answered; for a
    pending error, the error's text goes to [console.error] unless the
    environment is [test], and the answer is a page with the error's
    status, showing the error's text, or only the reason phrase of the
    status when the environment is [production]. *)
Definition final_handler (pending : option Error) (req : Request) : M (Z * Body) :=
  e ← gets env;
  let mode := or_default (NODE_ENV e) "development" in
  match pending with
  | None =>
      mret (404, BHtml ("Cannot " ++ method_name (req_method req) ++ " " ++ req_path req))
  | Some err =>
      _ ← (if String.eqb mode "test" then mret tt else console_error_text (error_text err));
      mret (error_status err,
            if String.eqb mode "production" then BReason (error_status err)
            else BHtml (error_text err))
  end.

(** The router's loop ([Router.handle] / [next]): layers are visited in
    registration order; a layer whose pattern does not match is skipped,
    and so is one whose match fails in decoding, whose error becomes
    pending unless one already is; while an error is pending only error
    handlers run, otherwise only regular ones; a throw makes its error
    pending for the layers that follow. *)
Fixpoint dispatch (stack : list Layer) (pending : option Error) (req : Request)
  : M (Z * Body) :=
  match stack with
  | [] => final_handler pending req
  | layer :: rest =>
      if pattern_match (layer_pattern layer) req then
        match decode_failure (layer_pattern layer) req with
        | Some failure => dispatch rest (Some (default failure pending)) req
        | None =>
            match layer, pending with
            | Regular _ h, None =>
                o ← h req;
                match o with
                | Respond s b => mret (s, b)
                | Next => dispatch rest None req
                | Throw e => dispatch rest (Some e) req
                end
            | OnError _ h, Some err =>
                o ← h err req;
                match o with
                | Respond s b => mret (s, b)
                | Next => dispatch rest None req
                | Throw e => dispatch rest (Some e) req
                end
            | Regular _ _, Some _ | OnError _ _, None => dispatch rest pending req
            end
        end
      else dispatch rest pending req
  end.

(** ** The middleware of lines 17-41 *)

(** [helmet()] and [compression()] set protective headers and the content
    encoding, neither of which this model tracks, and always call [next()]. *)
Definition helmet : Handler := fun _ => mret Next.
Definition compression : Handler := fun _ => mret Next.

(** *** Rate limiter (lines 21-28) *)

Definition windowMs : Z := 15 * 60 * 1000.
Definition max : nat := 100.
Definition limit_message : value :=
  VObj [("error", VStr "Demasiadas peticiones, intenta de nuevo en 15 minutos")].

(** The record of address [ip] that is still running at instant [now]. *)
Definition live_hit (store : gmap string Hit) (ip : string) (now : Z) : option Hit :=
  match store !! ip with
  | Some h => if (now <? hit_reset h)%Z then Some h else None
  | None => None
  end.

Definition live_count (store : gmap string Hit) (ip : string) (now : Z) : nat :=
  match live_hit store ip now with
  | Some h => hit_count h
  | None => O
  end.

(** The record after one more request: the running window counts it, an
    absent or elapsed one is replaced by a window that starts now. *)
Definition bump (store : gmap string Hit) (ip : string) (now : Z) : Hit :=
  match live_hit store ip now with
  | Some h => mkHit (S (hit_count h)) (hit_reset h)
  | None => mkHit 1 (now + windowMs)
  end.

(** Modelled from the spec: the middleware built by [rateLimit] belongs to
    the express-rate-limit package, which is not under [src/]; section 4.1
    gives its contract (a counter per source address over a 15-minute
    window, at most 100 requests per address per window, a structured
    rejection with a fixed message beyond that, HTTP 429), and lines 22-26
    give [windowMs], [max] and [message]. Every request is counted, the
    rejected ones too. *)
Definition limiter : Handler := fun req =>
  store ← gets hits;
  let h := bump store (req_ip req) (req_time req) in
  _ ← modify (with_hits (<[req_ip req := h]> store));
  if (max <? hit_count h)%nat then res_json 429 limit_message else mret Next.

(** *** CORS (lines 31-34) *)

Definition allowed_origin (e : Env) : string :=
  or_default (FRONTEND_URL e) "http://localhost:3000".

(** The cors package with [origin] a string and [credentials: true]
    (package defaults otherwise). A string [origin] is a fixed one: it is
    written into [Access-Control-Allow-Origin] whatever the request's own
    [Origin] header says ([configureOrigin]), with [Vary: Origin] unless it
    is ['*']. A preflight (OPTIONS) is answered by the package itself with
    204 and never reaches the routes ([preflightContinue] is off). *)
Definition cors : Handler := fun req =>
  e ← gets env;
  let origin := allowed_origin e in
  _ ← set_header "Access-Control-Allow-Origin" origin;
  _ ← (if String.eqb origin "*" then mret tt else set_header "Vary" "Origin");
  _ ← set_header "Access-Control-Allow-Credentials" "true";
  match req_method req with
  | OPTIONS =>
      _ ← set_header "Access-Control-Allow-Methods" "GET,HEAD,PUT,PATCH,POST,DELETE";
      _ ← set_header "Vary" "Access-Control-Request-Headers";
      _ ← match req_acrh req with
          | Some hs => if String.eqb hs "" then mret tt
                       else set_header "Access-Control-Allow-Headers" hs
          | None => mret tt
          end;
      _ ← set_header "Content-Length" "0";
      mret (Respond 204 BEmpty)
  | _ => mret Next
  end.

(** *** Body parsing (lines 37-38)

    body-parser 1.x: each parser leaves [req.body] alone when an earlier
    one filled it, sets it to [{}] when the entity is not its own, to the
    parsed value when it is, and passes its error on when parsing fails. *)
Definition body_or_empty (b : value) : value :=
  if to_boolean b then b else VObj [].

Definition json_parser : Handler := fun req =>
  match req_payload req with
  | JsonPayload v => _ ← modify (with_body v); mret Next
  | BadJson e => mret (Throw e)
  | _ => _ ← modify (fun w => with_body (body_or_empty (req_body w)) w); mret Next
  end.

Definition urlencoded_parser : Handler := fun req =>
  match req_payload req with
  | FormPayload v => _ ← modify (with_body v); mret Next
  | BadForm e => mret (Throw e)
  | _ => _ ← modify (fun w => with_body (body_or_empty (req_body w)) w); mret Next
  end.

(** *** Static files (line 41): [express.static('uploads')] with the
    package's defaults answers GET and HEAD only: it sends the file it
    finds, redirects (301, with a page naming the target) to a directory
    asked for without its slash, and calls [next()] when it finds nothing
    to serve. *)
Definition static_uploads : Handler := fun req =>
  match req_method req with
  | GET | HEAD =>
      found ← gets uploads;
      match found !! req_path req with
      | Some (File content) => mret (Respond 200 (BFile content))
      | Some (Directory location) =>
          mret (Respond 301 (BHtml ("Redirecting to " ++ location)))
      | None => mret Next
      end
  | _ => mret Next
  end.

(** ** The route handlers (lines 48-192) *)

Definition health : Handler := fun req =>
  e ← gets env;
  res_json 200
    (VObj [("status", VStr "OK");
           ("message", VStr "🌸 SakuraDevClass API funcionando correctamente");
           ("timestamp", VStr (req_time_iso req));
           ("environment", VStr (or_default (NODE_ENV e) "development"))]).

Definition welcome : Handler := fun _ =>
  res_json 200
    (VObj [("message", VStr "🌸 Bienvenido a SakuraDevClass API");
           ("version", VStr "1.0.0");
           ("endpoints",
            VArr [VStr "GET /api/health - Health check";
                  VStr "GET /api/projects - Obtener proyectos";
                  VStr "GET /api/students - Obtener estudiantes";
                  VStr "POST /api/contact - Enviar mensaje"])]).

Definition projects_data : list value :=
  [VObj [("_id", VStr "1");
         ("title", VStr "E-commerce Vintage");
         ("description", VStr "Tienda online con estética retro");
         ("technologies", VArr [VStr "React"; VStr "Node.js"; VStr "MongoDB"]);
         ("difficulty", VStr "Intermedio");
         ("season", VStr "Verano");
         ("status", VStr "Completado");
         ("featured", VBool true);
         ("sakuraPoints", VNum (of_Z 75));
         ("students",
          VArr [VObj [("_id", VStr "s1");
                      ("name", VStr "María García");
                      ("avatar",
                       VStr "https://via.placeholder.com/150x150/FFB7C5/FFFFFF?text=MG")]])];
   VObj [("_id", VStr "2");
         ("title", VStr "API de Biblioteca");
         ("description", VStr "Sistema de gestión de libros");
         ("technologies", VArr [VStr "Node.js"; VStr "Express"; VStr "MySQL"]);
         ("difficulty", VStr "Avanzado");
         ("season", VStr "Otoño");
         ("status", VStr "En Progreso");
         ("featured", VBool false);
         ("sakuraPoints", VNum (of_Z 50));
         ("students",
          VArr [VObj [("_id", VStr "s2");
                      ("name", VStr "Carlos López");
                      ("avatar",
                       VStr "https://via.placeholder.com/150x150/FFB7C5/FFFFFF?text=CL")]])]].

Definition projects : Handler := fun _ =>
  res_json 200
    (VObj [("success", VBool true);
           ("data", VArr projects_data);
           ("count", VNum (of_Z 2))]).

Definition skill (name : string) (level : Z) : value :=
  VObj [("name", VStr name); ("level", VNum (of_Z level))].

Definition students_data : list value :=
  [VObj [("_id", VStr "s1");
         ("name", VStr "María García");
         ("email", VStr "maria@example.com");
         ("avatar", VStr "https://via.placeholder.com/150x150/FFB7C5/FFFFFF?text=MG");
         ("bio", VStr "Desarrolladora Frontend apasionada por React");
         ("currentLevel", VStr "Intermedio");
         ("totalSakuraPoints", VNum (of_Z 150));
         ("skills", VArr [skill "React" 4; skill "JavaScript" 4; skill "CSS" 3])];
   VObj [("_id", VStr "s2");
         ("name", VStr "Carlos López");
         ("email", VStr "carlos@example.com");
         ("avatar", VStr "https://via.placeholder.com/150x150/FFB7C5/FFFFFF?text=CL");
         ("bio", VStr "Backend developer enfocado en APIs");
         ("currentLevel", VStr "Avanzado");
         ("totalSakuraPoints", VNum (of_Z 200));
         ("skills", VArr [skill "Node.js" 5; skill "MongoDB" 4; skill "Express" 5])]].

Definition students : Handler := fun _ =>
  res_json 200
    (VObj [("success", VBool true);
           ("data", VArr students_data);
           ("count", VNum (of_Z 2))]).

(** Destructuring [undefined] or [null] throws a TypeError. *)
Definition destructure_error : Error :=
  mkError "TypeError"
          "Cannot destructure property 'name' of 'req.body' as it is undefined."
          "TypeError: Cannot destructure property 'name' of 'req.body' as it is undefined."
          None.

Definition destructure_null_error : Error :=
  mkError "TypeError"
          "Cannot destructure property 'name' of 'req.body' as it is null."
          "TypeError: Cannot destructure property 'name' of 'req.body' as it is null."
          None.

Definition contact : Handler := fun _ =>
  body ← gets req_body;
  match body with
  | VUndefined => mret (Throw destructure_error)
  | VNull => mret (Throw destructure_null_error)
  | _ =>
      let name := get body "name" in
      let email := get body "email" in
      let subject := get body "subject" in
      let message := get body "message" in
      if falsy name || falsy email || falsy subject || falsy message then
        res_json 400
          (VObj [("success", VBool false);
                 ("message", VStr "Todos los campos son requeridos")])
      else
        _ ← console_log "📮 Nuevo mensaje de contacto:"
              (VObj [("name", name); ("email", email); ("subject", subject)]);
        res_json 200
          (VObj [("success", VBool true);
                 ("message", VStr "🌸 Mensaje enviado correctamente. Te responderé pronto!")])
  end.

Definition error_middleware (err : Error) : Handler := fun _ =>
  _ ← console_error "❌ Error:" (VStr (err_stack err));
  e ← gets env;
  res_json 500
    (VObj [("success", VBool false);
           ("message", VStr "Error interno del servidor");
           ("error",
            if bool_decide (NODE_ENV e = Some "development")
            then VStr (err_message err) else VUndefined)]).

Definition not_found : Handler := fun _ =>
  res_json 404
    (VObj [("success", VBool false);
           ("message", VStr "Ruta no encontrada 🌸");
           ("availableRoutes",
            VArr [VStr "/api/health"; VStr "/api/projects";
                  VStr "/api/students"; VStr "/api/contact"])]).

(** ** The application: the layers in registration order *)

(** The six functions passed to [app.get], [app.post] and [app.use('*')]. *)
Record Handlers : Type := mkHandlers {
  h_health : Handler;
  h_welcome : Handler;
  h_projects : Handler;
  h_students : Handler;
  h_contact : Handler;
  h_not_found : Handler
}.

Definition middleware : list Layer :=
  [Regular Everywhere helmet;                   (* line 17 *)
   Regular Everywhere compression;              (* line 18 *)
   Regular (Mount "/api/") limiter;             (* line 28 *)
   Regular Everywhere cors;                     (* line 31 *)
   Regular Everywhere json_parser;              (* line 37 *)
   Regular Everywhere urlencoded_parser;        (* line 38 *)
   Regular (Mount "/uploads") static_uploads].  (* line 41 *)

(** Lines 48-192 as registered, for any six handler bodies. *)
Definition routes_of (H : Handlers) : list Layer :=
  [Regular (Route GET "/api/health") (h_health H);        (* line 48 *)
   Regular (Route GET "/api") (h_welcome H);              (* line 58 *)
   Regular (Route GET "/api/projects") (h_projects H);    (* line 72 *)
   Regular (Route GET "/api/students") (h_students H);    (* line 117 *)
   Regular (Route POST "/api/contact") (h_contact H);     (* line 155 *)
   OnError Everywhere error_middleware;                   (* line 176 *)
   Regular Star (h_not_found H)].                         (* line 186 *)

Definition handlers : Handlers :=
  mkHandlers health welcome projects students contact not_found.

Definition routes : list Layer := routes_of handlers.
Definition app : list Layer := middleware ++ routes.

(** One exchange: a fresh [req]/[res] pair goes through the stack. The
    response is what the layers wrote on [res]; [on_the_wire] below gives
    what of it is sent. *)
Definition begin_exchange (w : World) : World :=
  with_headers [] (with_body VUndefined w).

Definition finish (r : (Z * Body) * World) : Response * World :=
  let '((s, b), w) := r in (mkResponse s (out_headers w) b, w).

Definition serve_with (stack : list Layer) (req : Request) (w : World) : Response * World :=
  finish (dispatch stack None req (begin_exchange w)).

Definition handle (req : Request) (w : World) : Response * World :=
  serve_with app req w.

(** What is sent of a response: to a HEAD request the status and the
    headers but no body ([res.send], [finalhandler] and [serve-static] all
    end a HEAD exchange without writing one). *)
Definition without_body (res : Response) : Response :=
  mkResponse (res_status res) (res_headers res) BEmpty.

Definition on_the_wire (req : Request) (res : Response) : Response :=
  match req_method req with
  | HEAD => without_body res
  | _ => res
  end.

(** A sequence of exchanges, one after the other on the same process. *)
Fixpoint run (w : World) (reqs : list Request) : list Response :=
  match reqs with
  | [] => []
  | req :: rest => let (res, w') := handle req w in res :: run w' rest
  end.

Fixpoint world_after (w : World) (reqs : list Request) : World :=
  match reqs with
  | [] => w
  | req :: rest => world_after (snd (handle req w)) rest
  end.

(** The process right after start-up. *)
Definition boot (e : Env) (files : gmap string Found) : World :=
  mkWorld e ∅ [] files VUndefined [].

Definition default_env : Env := mkEnv None None None.

(** ** Notions the statements use *)

(** The bodies the handlers of lines 72-192 send. *)
Definition projects_body : value :=
  VObj [("success", VBool true); ("data", VArr projects_data);
        ("count", VNum (of_nat (length projects_data)))].

Definition students_body : value :=
  VObj [("success", VBool true); ("data", VArr students_data);
        ("count", VNum (of_nat (length students_data)))].

Definition fields_required_body : value :=
  VObj [("success", VBool false); ("message", VStr "Todos los campos son requeridos")].

Definition contact_ok_body : value :=
  VObj [("success", VBool true);
        ("message", VStr "🌸 Mensaje enviado correctamente. Te responderé pronto!")].

Definition not_found_body : value :=
  VObj [("success", VBool false);
        ("message", VStr "Ruta no encontrada 🌸");
        ("availableRoutes",
         VArr [VStr "/api/health"; VStr "/api/projects";
               VStr "/api/students"; VStr "/api/contact"])].

Definition contact_fields : list string := ["name"; "email"; "subject"; "message"].

(** A contact field that is absent from the body, or bound to the empty
    string. *)
Definition missing_or_empty (body : value) (k : string) : Prop :=
  get body k = VUndefined \/ get body k = VStr "".

(** A contact field bound to a text that is not empty. *)
Definition filled (body : value) (k : string) : Prop :=
  exists s, get body k = VStr s /\ s <> "".

(** The request is for route [m path]: method and path as the router
    compares them. *)
Definition is_for (m : Method) (path : string) (req : Request) : Prop :=
  req_method req = m /\ route_path_match path (req_path req) = true.

(** The five endpoints of lines 48-173. *)
Definition endpoints : list (Method * string) :=
  [(GET, "/api/health"); (GET, "/api"); (GET, "/api/projects");
   (GET, "/api/students"); (POST, "/api/contact")].

(** No endpoint is registered for this request's path under its method; in
    particular, its path is that of no endpoint. *)
Definition unmatched (req : Request) : Prop :=
  Forall (fun '(m, path) => pattern_match (Route m path) req = false) endpoints.

Definition path_of_no_endpoint (req : Request) : Prop :=
  Forall (fun '(_, path) => route_path_match path (req_path req) = false) endpoints.

(** A proficiency level between 1 and 5. *)
Definition level_in_range (v : value) : bool :=
  match v with
  | VNum (Finite q) => Qle_bool (inject_Z 1) q && Qle_bool q (inject_Z 5)
  | _ => false
  end.

(** A (skill, level) pair as the student records hold them. *)
Definition skill_pair (v : value) : Prop :=
  exists name level, v = VObj [("name", VStr name); ("level", level)]
                     /\ level_in_range level = true.

Definition whitespace (c : ascii) : bool :=
  let n := N_of_ascii c in
  (n =? 32)%N || ((9 <=? n)%N && (n <=? 13)%N).

Fixpoint all_chars (f : ascii -> bool) (s : string) : bool :=
  match s with
  | EmptyString => true
  | String c rest => f c && all_chars f rest
  end.

(** A string of one or more blanks. *)
Definition whitespace_only (s : string) : Prop :=
  s <> "" /\ all_chars whitespace s = true.

(** The two layers registered after the endpoints (lines 176 and 186). *)
Definition closing_layers (H : Handlers) : list Layer :=
  [OnError Everywhere error_middleware; Regular Star (h_not_found H)].

(** How the router goes on after a handler left with [o]. *)
Definition continue (rest : list Layer) (req : Request) (r : Outcome * World)
  : (Z * Body) * World :=
  match r with
  | (Respond s b, w) => ((s, b), w)
  | (Next, w) => dispatch rest None req w
  | (Throw e, w) => dispatch rest (Some e) req w
  end.

(** The handler registered for an endpoint. *)
Definition endpoint_handler (H : Handlers) (m : Method) (path : string) : option Handler :=
  if method_eqb m GET && String.eqb path "/api/health" then Some (h_health H)
  else if method_eqb m GET && String.eqb path "/api" then Some (h_welcome H)
  else if method_eqb m GET && String.eqb path "/api/projects" then Some (h_projects H)
  else if method_eqb m GET && String.eqb path "/api/students" then Some (h_students H)
  else if method_eqb m POST && String.eqb path "/api/contact" then Some (h_contact H)
  else None.


(** What the error-handling middleware sends for [err] under environment
    [e], after [JSON.stringify] has dropped an [undefined] member. *)
Definition error_body (e : Env) (err : Error) : value :=
  VObj ([("success", VBool false); ("message", VStr "Error interno del servidor")]
        ++ (if bool_decide (NODE_ENV e = Some "development")
            then [("error", VStr (err_message err))] else [])).

(** The console after the error-handling middleware, and after an accepted
    contact message. *)
Definition error_logged (err : Error) (w : World) : World :=
  with_console (console w ++ [Stderr "❌ Error:" (VStr (err_stack err))]) w.

(** The world after Express has logged [err] on its own. *)
Definition express_logged (err : Error) (w : World) : World :=
  if String.eqb (or_default (NODE_ENV (env w)) "development") "test" then w
  else with_console (console w ++ [StderrText (error_text err)]) w.

Definition contact_logged (w : World) : World :=
  with_console
    (console w ++
     [Stdout "📮 Nuevo mensaje de contacto:"
        (VObj [("name", get (req_body w) "name");
               ("email", get (req_body w) "email");
               ("subject", get (req_body w) "subject")])]) w.

(** [req.body] holds what a body parser left there: an object or an array,
    never [undefined] or [null]. *)
Definition parsed (w : World) : Prop :=
  req_body w <> VUndefined /\ req_body w <> VNull.

Definition keys_of (v : value) : list string :=
  match v with
  | VObj fields => map fst fields
  | _ => []
  end.

Definition project_keys : list string :=
  ["_id"; "title"; "description"; "technologies"; "difficulty"; "season";
   "status"; "featured"; "sakuraPoints"; "students"].

Definition student_keys : list string :=
  ["_id"; "name"; "email"; "avatar"; "bio"; "currentLevel";
   "totalSakuraPoints"; "skills"].

(** The values the presence check of line 159 takes for absent although
    the key is there. *)
Definition falsy_samples : list value :=
  [VStr ""; VNum (of_Z 0); VBool false; VNull].

(** The JSON value a response carries, if it carries one. *)
Definition json_of (b : Body) : value :=
  match b with
  | BJson v => v
  | _ => VUndefined
  end.

(** ** The pipeline seen from the limiter *)

(** The request's path lies under the limiter's mount (line 28). *)
Definition under_api (req : Request) : bool := mount_match "/api/" (req_path req).

(** The world once the limiter has counted the request. *)
Definition counted (req : Request) (w : World) : World :=
  with_hits (<[req_ip req := bump (hits w) (req_ip req) (req_time req)]> (hits w)) w.

(** The limiter turns the request away: it is under the mount and its
    address has used up the window. *)
Definition rejected (req : Request) (w : World) : bool :=
  under_api req && (max <? hit_count (bump (hits w) (req_ip req) (req_time req)))%nat.

(** The rejection: nothing after the limiter has touched the response. *)
Definition too_many_requests : Response := mkResponse 429 [] (BJson limit_message).

(** The layers registered after the limiter, and the response they give. *)
Definition past_limiter : list Layer :=
  [Regular Everywhere cors;
   Regular Everywhere json_parser;
   Regular Everywhere urlencoded_parser;
   Regular (Mount "/uploads") static_uploads] ++ routes.

Definition downstream (req : Request) (w : World) : Response * World :=
  finish (dispatch past_limiter None req w).

(** The world in which the stages after the limiter start on [req]. *)
Definition admitted_world (req : Request) (w : World) : World :=
  if under_api req then counted req (begin_exchange w) else begin_exchange w.

(** Values of the header [k] among [hs]. *)
Definition header_values (k : string) (hs : list (string * string)) : list string :=
  map snd (List.filter (fun kv => String.eqb (fst kv) k) hs).

(** The request comes from address [a] and falls under the limiter. *)
Definition limited_from (a : string) (req : Request) : bool :=
  String.eqb (req_ip req) a && under_api req.

(** How many of [reqs] the limiter counts for address [a]. *)
Definition seen (a : string) (reqs : list Request) : nat :=
  length (List.filter (limited_from a) reqs).

(** What a layer may not touch. *)
Definition same_process (w w' : World) : Prop :=
  env w' = env w /\ hits w' = hits w /\ uploads w' = uploads w.

Definition same_process_and_headers (w w' : World) : Prop :=
  same_process w w' /\ out_headers w' = out_headers w.

Definition layer_keeps (R : World -> World -> Prop) (l : Layer) : Prop :=
  match l with
  | Regular _ h => forall req w, R w (snd (h req w))
  | OnError _ h => forall err req w, R w (snd (h err req w))
  end.

(** The layers registered after the CORS stage. *)
Definition past_cors : list Layer :=
  [Regular Everywhere json_parser;
   Regular Everywhere urlencoded_parser;
   Regular (Mount "/uploads") static_uploads] ++ routes.

(** The headers the CORS stage writes on every response, and those it adds
    to a preflight. *)
Definition cors_headers (e : Env) : list (string * string) :=
  ([("Access-Control-Allow-Origin", allowed_origin e)]
   ++ (if String.eqb (allowed_origin e) "*" then [] else [("Vary", "Origin")])
   ++ [("Access-Control-Allow-Credentials", "true")])%list.

Definition preflight_headers (req : Request) : list (string * string) :=
  ([("Access-Control-Allow-Methods", "GET,HEAD,PUT,PATCH,POST,DELETE");
    ("Vary", "Access-Control-Request-Headers")]
   ++ match req_acrh req with
      | Some hs => if String.eqb hs "" then [] else [("Access-Control-Allow-Headers", hs)]
      | None => []
      end
   ++ [("Content-Length", "0")])%list.

Definition is_preflight (req : Request) : bool := method_eqb (req_method req) OPTIONS.

(** A layer that never answers with status 429. *)
Definition layer_not_429 (l : Layer) : Prop :=
  match l with
  | Regular _ h => forall req w s b w', h req w = (Respond s b, w') -> s <> 429
  | OnError _ h => forall err req w s b w', h err req w = (Respond s b, w') -> s <> 429
  end.

(** The request's path starts with the characters [/api/]. *)
Definition prefixed_with_api (req : Request) : bool := String.prefix "/api/" (req_path req).

(** The world as the CORS stage leaves it for a request that is not a
    preflight, and as the two body parsers leave it after that. *)
Definition after_cors (w : World) : World :=
  with_headers (out_headers w ++ cors_headers (env w))%list w.

Definition after_parsers (req : Request) (w : World) : World :=
  snd (urlencoded_parser req (snd (json_parser req (after_cors w)))).

(** The request gets as far as the endpoints: it is neither a preflight,
    nor for the uploads directory, nor is its entity rejected by a parser. *)
Definition reaches_routes (req : Request) : Prop :=
  is_preflight req = false
  /\ mount_match "/uploads" (req_path req) = false
  /\ match req_payload req with
     | BadJson _ | BadForm _ => False
     | _ => True
     end.

(** ** Sample inputs *)

Definition sample_error : Error :=
  mkError "SyntaxError"
          "Unexpected token } in JSON at position 12"
          "SyntaxError: Unexpected token } in JSON at position 12"
          (Some 400).

Definition plain_error : Error :=
  mkError "Error" "boom" "Error: boom" None.

Definition request (m : Method) (path : string) (payload : Payload) : Request :=
  mkRequest m path "203.0.113.7" (Some "http://localhost:3000") None payload
            1700000000000 "2023-11-14T22:13:20.000Z".

Definition request_from (origin : string) (m : Method) (path : string) : Request :=
  mkRequest m path "203.0.113.7" (Some origin) None NoPayload
            1700000000000 "2023-11-14T22:13:20.000Z".

(** The handlers of the file, except that the fallback throws. *)
Definition handlers_with_failing_fallback (err : Error) : Handlers :=
  mkHandlers health welcome projects students contact (fun _ => mret (Throw err)).

(** A filled-in contact form, and one that lacks three of its fields. *)
Definition contact_form : value :=
  VObj [("name", VStr "Aiko"); ("email", VStr "aiko@example.com");
        ("subject", VStr "Hola"); ("message", VStr "Quiero inscribirme")].

Definition partial_form : value := VObj [("name", VStr "Aiko")].

Definition blank_form : value :=
  VObj [("name", VStr "   "); ("email", VStr "aiko@example.com");
        ("subject", VStr "Hola"); ("message", VStr "Quiero inscribirme")].

Definition zero_form : value :=
  VObj [("name", VStr "Aiko"); ("email", VStr "aiko@example.com");
        ("subject", VNum (of_Z 0)); ("message", VStr "Quiero inscribirme")].

(** The world at the endpoints when the parsers left [b] in [req.body]. *)
Definition world_with_body (b : value) : World := with_body b (boot default_env ∅).

Definition development_env : Env := mkEnv None (Some "development") None.

(** * Further notions *)

(** ** The same request with one part replaced *)

Definition with_method (m : Method) (req : Request) : Request :=
  mkRequest m (req_path req) (req_ip req) (req_origin req) (req_acrh req)
            (req_payload req) (req_time req) (req_time_iso req).

Definition with_path (path : string) (req : Request) : Request :=
  mkRequest (req_method req) path (req_ip req) (req_origin req) (req_acrh req)
            (req_payload req) (req_time req) (req_time_iso req).

Definition with_origin (origin : option string) (req : Request) : Request :=
  mkRequest (req_method req) (req_path req) (req_ip req) origin (req_acrh req)
            (req_payload req) (req_time req) (req_time_iso req).

Definition with_payload (payload : Payload) (req : Request) : Request :=
  mkRequest (req_method req) (req_path req) (req_ip req) (req_origin req) (req_acrh req)
            payload (req_time req) (req_time_iso req).

(** The request is a HEAD. *)
Definition is_head (req : Request) : bool := method_eqb (req_method req) HEAD.

(** A body parser rejects the entity. *)
Definition entity_rejected (p : Payload) : bool :=
  match p with
  | BadJson _ | BadForm _ => true
  | _ => false
  end.

(** [express.static] answers the request itself: a GET or HEAD under
    /uploads for which it finds a file or a directory. *)
Definition static_answers (req : Request) (w : World) : bool :=
  mount_match "/uploads" (req_path req)
  && (method_eqb (req_method req) GET || method_eqb (req_method req) HEAD)
  && bool_decide (is_Some (uploads w !! req_path req)).

(** Two runs of the router end alike: with the same status and the same
    headers, on the same process. *)
Definition alike (x y : (Z * Body) * World) : Prop :=
  fst (fst x) = fst (fst y)
  /\ out_headers (snd x) = out_headers (snd y)
  /\ same_process (snd x) (snd y).

(** A layer treats two requests alike: it matches both or neither, with
    the same outcome of decoding, and where it matches its handler does the
    same on both. *)
Definition layer_agrees (r1 r2 : Request) (l : Layer) : Prop :=
  pattern_match (layer_pattern l) r1 = pattern_match (layer_pattern l) r2
  /\ decode_failure (layer_pattern l) r1 = decode_failure (layer_pattern l) r2
  /\ (pattern_match (layer_pattern l) r2 = true ->
      match l with
      | Regular _ h => forall w, h r1 w = h r2 w
      | OnError _ h => forall err w, h err r1 w = h err r2 w
      end).

(** The layers in front of the two closing ones: the middleware and the
    five endpoints. *)
Definition before_closing : list Layer := take 12 app.

(** The path ends with a slash. *)
Fixpoint ends_with_slash (s : string) : bool :=
  match s with
  | EmptyString => false
  | String c EmptyString => Ascii.eqb c "/"
  | String _ rest => ends_with_slash rest
  end.

(** What the welcome endpoint advertises, read as method and path: the
    text before the first blank and the text up to the next one. *)
Fixpoint until_blank (s : string) : string * string :=
  match s with
  | EmptyString => (EmptyString, EmptyString)
  | String c rest =>
      if Ascii.eqb c " " then (EmptyString, rest)
      else let (word, after) := until_blank rest in (String c word, after)
  end.

Definition method_of_name (s : string) : option Method :=
  if String.eqb s "GET" then Some GET
  else if String.eqb s "HEAD" then Some HEAD
  else if String.eqb s "POST" then Some POST
  else if String.eqb s "PUT" then Some PUT
  else if String.eqb s "PATCH" then Some PATCH
  else if String.eqb s "DELETE" then Some DELETE
  else if String.eqb s "OPTIONS" then Some OPTIONS
  else None.

Definition advertised (v : value) : option (Method * string) :=
  match v with
  | VStr s =>
      let (name, after) := until_blank s in
      match method_of_name name with
      | Some m => Some (m, fst (until_blank after))
      | None => None
      end
  | _ => None
  end.

Definition items_of (v : value) : list value :=
  match v with
  | VArr items => items
  | _ => []
  end.

(** The comparison at the heart of [mount_match], on a pattern and a path
    already in lower case. *)
Definition mount_core (q p : string) : bool :=
  String.prefix q p && at_boundary (drop_chars (String.length q) p).

(** The label [process.env.NODE_ENV || 'development'] of lines 53 and 204. *)
Definition environment_label (e : Env) : string :=
  match NODE_ENV e with
  | Some "" | None => "development"
  | Some label => label
  end.

(** The entity is one the parsers accept, and [v] is what strict JSON or a
    urlencoded form parses to: an object or an array. *)
Definition is_container (v : value) : bool :=
  match v with
  | VObj _ | VArr _ => true
  | _ => false
  end.

Definition accepted_entity (p : Payload) : Prop :=
  match p with
  | NoPayload => True
  | JsonPayload v | FormPayload v => is_container v = true
  | BadJson _ | BadForm _ => False
  end.


(** The answers a request can get, by status and kind of body: the JSON
    answers of the file and of the limiter, a file, the empty answer to a
    preflight, the redirect to a directory of the uploads, and the page of
    the final handler for a path that does not decode. *)
Definition answer_kind (req : Request) (s : Z) (b : Body) : Prop :=
  match b with
  | BJson _ => In s [200; 400; 404; 429; 500]
  | BFile _ => s = 200
  | BEmpty => s = 204
  | BHtml text =>
      (s = 301 /\ exists location, text = "Redirecting to " ++ location)
      \/ (s = 400 /\ decodable (req_path req) = false
          /\ text = error_text (uri_error (req_path req)))
  | BReason status => s = 400 /\ status = 400 /\ decodable (req_path req) = false
  end.

Definition layer_answers (l : Layer) : Prop :=
  match l with
  | Regular _ h => forall req w s b w', h req w = (Respond s b, w') -> answer_kind req s b
  | OnError _ h =>
      forall err req w s b w', h err req w = (Respond s b, w') -> answer_kind req s b
  end.

(** A line an exchange can write: the notice of a contact message, with the
    sender's name, address and subject and nothing else, the stack trace
    the error-handling middleware logs, or the line Express itself writes
    for a path that does not decode. *)
Definition known_line (l : LogLine) : Prop :=
  match l with
  | Stdout text arg =>
      text = "📮 Nuevo mensaje de contacto:" /\ keys_of arg = ["name"; "email"; "subject"]
  | Stderr text arg => text = "❌ Error:" /\ exists stack, arg = VStr stack
  | StderrText text => exists path, text = error_text (uri_error path)
  end.

(** What an exchange may add to the console: nothing, or one known line. *)
Definition logs_at_most_one (w w' : World) : Prop :=
  exists lines, console w' = (console w ++ lines)%list
                /\ (length lines <= 1)%nat /\ Forall known_line lines.

(** A layer writes to the console only as it answers, and then one line. *)
Definition layer_logs (l : Layer) : Prop :=
  match l with
  | Regular _ h =>
      forall req w,
        match h req w with
        | (Respond _ _, w') => logs_at_most_one w w'
        | (_, w') => console w' = console w
        end
  | OnError _ h =>
      forall err req w,
        match h err req w with
        | (Respond _ _, w') => logs_at_most_one w w'
        | (_, w') => console w' = console w
        end
  end.

(** ** More sample inputs *)

(** A process whose uploads directory holds one file and one directory. *)
Definition world_with_upload : World :=
  mkWorld default_env ∅ []
    (<["/uploads/avatar.png" := File "PNG"]>
       (<["/uploads/2024" := Directory "/uploads/2024/"]> ∅))
    VUndefined [].

(** The same process after the sample address has used up its window. *)
Definition exhausted_upload_world : World :=
  with_hits (<["203.0.113.7" := mkHit 100 1700000900000]> ∅) world_with_upload.

(** A process on which the sample address has used up its window. *)
Definition exhausted_world : World :=
  mkWorld default_env (<["203.0.113.7" := mkHit 100 1700000900000]> ∅) [] ∅ VUndefined [].
(** * Properties *)

(** ** Matching *)

Lemma route_path_match_spec pattern path :
  route_path_match pattern path = true <->
  lower path = lower pattern \/ lower path = lower pattern ++ "/".
Proof.
  unfold route_path_match. rewrite orb_true_iff, !String.eqb_eq. tauto.
Qed.

Lemma method_match_refl m : method_match m m = true.
Proof. destruct m; reflexivity. Qed.

Example mount_api_examples :
  mount_match "/api/" "/api/health" = true /\
  mount_match "/api/" "/api" = true /\
  mount_match "/api/" "/API/students/" = true /\
  mount_match "/api/" "/apiary" = false /\
  mount_match "/api/" "/uploads/a.png" = false.
Proof. repeat split; reflexivity. Qed.

Example route_examples :
  route_path_match "/api/projects" "/api/projects" = true /\
  route_path_match "/api/projects" "/api/projects/" = true /\
  route_path_match "/api/projects" "/Api/Projects" = true /\
  route_path_match "/api/projects" "/api/projects/1" = false /\
  route_path_match "/api" "/api/" = true.
Proof. repeat split; reflexivity. Qed.

Example decodable_examples :
  decodable "/api/unknown" = true /\
  decodable "/a%20b/%C3%A9" = true /\
  decodable "/%e2%82%ac" = true /\
  decodable "/%" = false /\
  decodable "/100%/x" = false /\
  decodable "/%C3" = false /\
  decodable "/%C0%AF" = false /\
  decodable "/%ED%A0%80" = false /\
  decodable "/%FF" = false.
Proof. repeat split; reflexivity. Qed.

(** Rewrites the request's method and (lower-cased) path by what the
    hypotheses say of them and lets the router run. *)
Ltac route_by Hm Hp :=
  unfold routes, routes_of, handlers, dispatch, layer_pattern, pattern_match,
    route_path_match;
  rewrite Hm, Hp; reflexivity.

Lemma dispatch_projects req w :
  is_for GET "/api/projects" req ->
  dispatch routes None req w = ((200, BJson projects_body), w).
Proof.
  intros [Hm Hp]. apply route_path_match_spec in Hp.
  destruct Hp as [Hp | Hp]; route_by Hm Hp.
Qed.

Lemma dispatch_students req w :
  is_for GET "/api/students" req ->
  dispatch routes None req w = ((200, BJson students_body), w).
Proof.
  intros [Hm Hp]. apply route_path_match_spec in Hp.
  destruct Hp as [Hp | Hp]; route_by Hm Hp.
Qed.

(** ** From a matched endpoint to the end of the stack *)

Ltac run_router Hm Hp :=
  unfold routes_of, dispatch, layer_pattern, pattern_match, route_path_match;
  rewrite Hm, Hp; cbv;
  repeat match goal with
         | |- context [match ?h ?r ?w with pair _ _ => _ end] =>
             destruct (h r w) as [[? ? | | ?] ?]
         end;
  reflexivity.

Lemma dispatch_endpoint H m path h req w :
  In (m, path) endpoints ->
  endpoint_handler H m path = Some h ->
  is_for m path req ->
  dispatch (routes_of H) None req w = continue (closing_layers H) req (h req w).
Proof.
  intros Hin Hh Hfor. simpl in Hin. destruct H as [h1 h2 h3 h4 h5 h6].
  destruct Hin as [Heq | [Heq | [Heq | [Heq | [Heq | []]]]]];
    inversion Heq; subst; cbn in Hh; inversion Hh; subst;
    destruct Hfor as [Hm Hp]; apply route_path_match_spec in Hp;
    destruct Hp as [Hp | Hp]; run_router Hm Hp.
Qed.

Lemma error_middleware_run err req w :
  error_middleware err req w
  = (Respond 500 (BJson (error_body (env w) err)), error_logged err w).
Proof.
  unfold error_middleware, error_body, error_logged, console_error, modify, gets,
    res_json, mbind, M_bind, mret, M_ret.
  cbn. destruct (bool_decide _); reflexivity.
Qed.

Lemma closing_pending H err req w :
  dispatch (closing_layers H) (Some err) req w
  = ((500, BJson (error_body (env w) err)), error_logged err w).
Proof.
  unfold closing_layers, dispatch, layer_pattern, pattern_match, decode_failure,
    mbind, M_bind.
  rewrite error_middleware_run. reflexivity.
Qed.

Lemma closing_none H req w :
  decodable (req_path req) = true ->
  dispatch (closing_layers H) None req w = continue [] req (h_not_found H req w).
Proof.
  intros Hdec.
  unfold closing_layers, dispatch, layer_pattern, pattern_match, decode_failure,
    continue, mbind, M_bind.
  rewrite Hdec. destruct (h_not_found H req w) as [[? ? | | ?] ?]; reflexivity.
Qed.

(** On a path that does not decode the fallback is skipped, and the
    URIError of the router is left to the final handler. *)
Lemma closing_undecodable H req w :
  decodable (req_path req) = false ->
  dispatch (closing_layers H) None req w
  = final_handler (Some (uri_error (req_path req))) req w.
Proof.
  intros Hdec.
  unfold closing_layers, dispatch, layer_pattern, pattern_match, decode_failure.
  rewrite Hdec. reflexivity.
Qed.

Lemma final_handler_error err req w :
  final_handler (Some err) req w
  = ((error_status err,
      if String.eqb (or_default (NODE_ENV (env w)) "development") "production"
      then BReason (error_status err) else BHtml (error_text err)),
     express_logged err w).
Proof.
  unfold final_handler, express_logged, console_error_text, modify, gets,
    mbind, M_bind, mret, M_ret.
  destruct (String.eqb (or_default (NODE_ENV (env w)) "development") "test") eqn:Htest.
  - apply String.eqb_eq in Htest. rewrite Htest. reflexivity.
  - reflexivity.
Qed.

(** ** The contact handler *)

Lemma falsy_missing_or_empty body k : missing_or_empty body k -> falsy (get body k) = true.
Proof. intros [-> | ->]; reflexivity. Qed.

Lemma filled_truthy body k : filled body k -> falsy (get body k) = false.
Proof.
  intros (s & -> & Hs). unfold falsy, to_boolean.
  destruct (String.eqb_spec s ""); [contradiction | reflexivity].
Qed.

Lemma contact_rejects req w k :
  parsed w -> In k contact_fields -> falsy (get (req_body w) k) = true ->
  contact req w = (Respond 400 (BJson fields_required_body), w).
Proof.
  intros [Hu Hn] Hk Hf.
  assert (Hany : falsy (get (req_body w) "name") || falsy (get (req_body w) "email")
                 || falsy (get (req_body w) "subject")
                 || falsy (get (req_body w) "message") = true).
  { simpl in Hk. destruct Hk as [<- | [<- | [<- | [<- | []]]]]; rewrite Hf;
      rewrite ?orb_true_r; reflexivity. }
  unfold contact, gets, mbind, M_bind.
  destruct (req_body w) eqn:Hb; try contradiction; rewrite Hany; reflexivity.
Qed.

Lemma contact_accepts req w :
  (forall k, In k contact_fields -> falsy (get (req_body w) k) = false) ->
  contact req w = (Respond 200 (BJson contact_ok_body), contact_logged w).
Proof.
  intros Hall.
  assert (Hn := Hall "name" ltac:(simpl; auto)).
  assert (He := Hall "email" ltac:(simpl; auto)).
  assert (Hs := Hall "subject" ltac:(simpl; auto)).
  assert (Hm := Hall "message" ltac:(simpl; auto)).
  unfold contact, contact_logged, gets, mbind, M_bind.
  destruct (req_body w) eqn:Hb; try discriminate Hn;
    rewrite Hn, He, Hs, Hm; reflexivity.
Qed.

Lemma dispatch_contact req w :
  is_for POST "/api/contact" req ->
  dispatch routes None req w = continue (closing_layers handlers) req (contact req w).
Proof.
  intros Hfor. unfold routes.
  apply (dispatch_endpoint handlers POST "/api/contact" contact); auto.
  simpl; auto 10.
Qed.

(** C1. A POST to /api/contact whose body binds name, email, subject and
    message to non-empty texts is answered 200 with success=true (and
    leaves one line on the console); one in which any of the four fields is
    missing or empty is answered 400 with success=false and the fixed
    message 'Todos los campos son requeridos', and nothing is logged: the
    world is left as it was. The request is taken where the router hands
    it to the endpoints (lines 48-192), with [req.body] as the parsers left
    it. *)
Theorem contact_requires_all_fields req w :
  is_for POST "/api/contact" req ->
  parsed w ->
  ((forall k, In k contact_fields -> filled (req_body w) k) ->
   dispatch routes None req w = ((200, BJson contact_ok_body), contact_logged w)
   /\ get contact_ok_body "success" = VBool true)
  /\
  ((exists k, In k contact_fields /\ missing_or_empty (req_body w) k) ->
   dispatch routes None req w = ((400, BJson fields_required_body), w)
   /\ get fields_required_body "success" = VBool false
   /\ get fields_required_body "message" = VStr "Todos los campos son requeridos"
   /\ console (snd (dispatch routes None req w)) = console w).
Proof.
  intros Hfor Hparsed. split.
  - intros Hall. split; [| reflexivity].
    rewrite dispatch_contact by assumption.
    rewrite contact_accepts; [reflexivity |].
    intros k Hk. apply filled_truthy, Hall, Hk.
  - intros (k & Hk & Hmiss).
    assert (Hrun : dispatch routes None req w = ((400, BJson fields_required_body), w)).
    { rewrite dispatch_contact by assumption.
      rewrite (contact_rejects req w k); auto using falsy_missing_or_empty. }
    rewrite Hrun. repeat split; reflexivity.
Qed.

Lemma whitespace_only_filled body k s :
  get body k = VStr s -> whitespace_only s -> filled body k.
Proof. intros Hget [Hne _]. exists s. split; assumption. Qed.

(** C10. The presence check is JavaScript falsiness: a field that is there
    but bound to the empty string, the number 0, false or null is taken
    for missing and the request is rejected with 400, whereas a field bound
    to a string of blanks counts as present. *)
Theorem contact_check_is_falsiness req w :
  is_for POST "/api/contact" req ->
  parsed w ->
  (forall k v, In k contact_fields -> In v falsy_samples ->
     has_own (req_body w) k = true -> get (req_body w) k = v ->
     dispatch routes None req w = ((400, BJson fields_required_body), w))
  /\
  (forall k s, In k contact_fields ->
     get (req_body w) k = VStr s -> whitespace_only s ->
     (forall k', In k' contact_fields -> k' <> k -> filled (req_body w) k') ->
     dispatch routes None req w = ((200, BJson contact_ok_body), contact_logged w)).
Proof.
  intros Hfor Hparsed. split.
  - intros k v Hk Hv _ Hget.
    rewrite dispatch_contact by assumption.
    rewrite (contact_rejects req w k); auto.
    rewrite Hget. simpl in Hv.
    destruct Hv as [<- | [<- | [<- | [<- | []]]]]; reflexivity.
  - intros k s Hk Hget Hws Hall.
    rewrite dispatch_contact by assumption.
    rewrite contact_accepts; [reflexivity |].
    intros k' Hk'. apply filled_truthy.
    destruct (String.eqb_spec k' k) as [-> | Hne].
    + eapply whitespace_only_filled; eassumption.
    + apply Hall; assumption.
Qed.

(** ** The data endpoints *)

(** C6. A GET of /api/projects is answered with success=true, a data array
    of exactly two Project records, and a count equal to the length of that
    array, in whatever world the request comes to the endpoints. *)
Theorem projects_count_matches_data req w :
  is_for GET "/api/projects" req ->
  exists data,
    dispatch routes None req w
    = ((200, BJson (VObj [("success", VBool true); ("data", VArr data);
                          ("count", VNum (of_nat (length data)))])), w)
    /\ length data = 2%nat
    /\ Forall (fun p => keys_of p = project_keys) data.
Proof.
  intros Hfor. exists projects_data. split; [| split].
  - apply dispatch_projects, Hfor.
  - reflexivity.
  - repeat constructor.
Qed.

(** C7. A GET of /api/students is answered with exactly two Student
    records, and in each of them every (skill, level) pair of the skills
    list has its level between 1 and 5. *)
Theorem students_levels_in_range req w :
  is_for GET "/api/students" req ->
  exists data,
    dispatch routes None req w
    = ((200, BJson (VObj [("success", VBool true); ("data", VArr data);
                          ("count", VNum (of_nat (length data)))])), w)
    /\ length data = 2%nat
    /\ Forall (fun s => keys_of s = student_keys
                        /\ exists pairs, get s "skills" = VArr pairs
                                         /\ pairs <> []
                                         /\ Forall skill_pair pairs) data.
Proof.
  intros Hfor. exists students_data. split; [| split].
  - apply dispatch_students, Hfor.
  - reflexivity.
  - repeat constructor;
      (eexists; split; [reflexivity | split; [discriminate |]]);
      repeat constructor; eexists _, _; split; reflexivity.
Qed.

(** ** The fallback *)

Lemma unmatched_dispatch req w :
  unmatched req -> decodable (req_path req) = true ->
  dispatch routes None req w = ((404, BJson not_found_body), w).
Proof.
  intros Hun Hdec. unfold unmatched, endpoints in Hun.
  repeat match goal with
         | H : Forall _ (_ :: _) |- _ =>
             let Hhd := fresh "Hhd" in
             apply Forall_cons in H; destruct H as [Hhd H]
         end.
  unfold routes, routes_of, handlers, dispatch, layer_pattern.
  rewrite Hhd, Hhd0, Hhd1, Hhd2, Hhd3.
  unfold pattern_match, decode_failure. rewrite Hdec. reflexivity.
Qed.

Lemma path_of_no_endpoint_unmatched req : path_of_no_endpoint req -> unmatched req.
Proof.
  unfold path_of_no_endpoint, unmatched. intros Hno.
  eapply Forall_impl; [exact Hno |].
  intros [m path] Hp. simpl. rewrite Hp. reflexivity.
Qed.

(** The same answer when the path is an endpoint's but the method is not. *)
Example post_to_projects_gets_404 :
  fst (dispatch routes None (request POST "/api/projects" NoPayload) (boot default_env ∅))
  = (404, BJson not_found_body).
Proof. reflexivity. Qed.

(** ** The error-handling middleware *)

Lemma error_body_fields e err :
  get (error_body e err) "success" = VBool false
  /\ get (error_body e err) "message" = VStr "Error interno del servidor".
Proof. split; reflexivity. Qed.

Lemma error_body_detail e err :
  (NODE_ENV e = Some "development" -> get (error_body e err) "error" = VStr (err_message err))
  /\ (NODE_ENV e <> Some "development" -> has_own (error_body e err) "error" = false).
Proof.
  unfold error_body. split; intros Hmode.
  - rewrite bool_decide_eq_true_2 by assumption. reflexivity.
  - rewrite bool_decide_eq_false_2 by assumption. reflexivity.
Qed.

(** C3, as the code has it. Whatever error reaches the error-handling
    middleware, the answer is 500 with success=false and the generic
    message, and it carries the raw error message exactly when NODE_ENV is
    set to 'development'; with NODE_ENV unset the message is left out (the
    'development' default of lines 53 and 204 only labels the environment). *)
Theorem error_detail_needs_explicit_development err req w :
  exists body,
    error_middleware err req w = (Respond 500 (BJson body), error_logged err w)
    /\ get body "success" = VBool false
    /\ get body "message" = VStr "Error interno del servidor"
    /\ (get body "error" = VStr (err_message err) <-> NODE_ENV (env w) = Some "development")
    /\ (has_own body "error" = false <-> NODE_ENV (env w) <> Some "development")
    /\ (NODE_ENV (env w) = None -> has_own body "error" = false).
Proof.
  exists (error_body (env w) err).
  destruct (error_body_detail (env w) err) as [Hdev Hother].
  split; [apply error_middleware_run |].
  split; [reflexivity |]. split; [reflexivity |].
  assert (Hkeep : NODE_ENV (env w) = Some "development" ->
                  has_own (error_body (env w) err) "error" = true).
  { intros Hmode. unfold error_body.
    rewrite bool_decide_eq_true_2 by assumption. reflexivity. }
  assert (Hdrop : NODE_ENV (env w) <> Some "development" ->
                  get (error_body (env w) err) "error" = VUndefined).
  { intros Hmode. unfold error_body.
    rewrite bool_decide_eq_false_2 by assumption. reflexivity. }
  destruct (decide (NODE_ENV (env w) = Some "development")) as [Hmode | Hmode].
  - split; [split; auto |]. split; [split |].
    + intros Habsent. rewrite Hkeep in Habsent by assumption. discriminate Habsent.
    + intros Hno. contradiction.
    + intros Hnone. rewrite Hnone in Hmode. discriminate Hmode.
  - split; [split |]. 
    + intros Hpresent. rewrite Hdrop in Hpresent by assumption. discriminate Hpresent.
    + intros Hyes. contradiction.
    + split; [split; auto |]. intros _. auto.
Qed.

(** C3 as stated fails: under the default configuration (NODE_ENV unset) a
    request whose JSON body is malformed is answered 500 without any error
    member, on a process whose health endpoint reports 'development'. *)
Lemma default_env_hides_error_message :
  let w := boot default_env ∅ in
  let bad := fst (handle (request POST "/api/contact" (BadJson sample_error)) w) in
  let ok := fst (handle (request GET "/api/health" NoPayload) w) in
  NODE_ENV (env w) = None
  /\ res_status bad = 500
  /\ has_own (json_of (res_body bad)) "error" = false
  /\ get (json_of (res_body bad)) "error" <> VStr (err_message sample_error)
  /\ get (json_of (res_body ok)) "environment" = VStr "development".
Proof. repeat split; try reflexivity. discriminate. Qed.

(** ** Where the error-handling middleware sits *)

(** C4, as the code has it. The error-handling middleware is registered
    after the five endpoints and before the 404 fallback: an exception
    raised by the handler of health, welcome, projects, students or contact
    is intercepted by it and answered 500 with success=false and the
    generic message, after the stack trace is logged. *)
Theorem endpoint_exception_is_intercepted H m path h req w err w' :
  In (m, path) endpoints ->
  endpoint_handler H m path = Some h ->
  is_for m path req ->
  h req w = (Throw err, w') ->
  dispatch (routes_of H) None req w
  = ((500, BJson (error_body (env w') err)), error_logged err w')
  /\ get (error_body (env w') err) "success" = VBool false
  /\ get (error_body (env w') err) "message" = VStr "Error interno del servidor"
  /\ exists before : list Layer,
       routes_of H = (before ++ closing_layers H)%list /\ length before = 5%nat.
Proof.
  intros Hin Hh Hfor Hthrow.
  rewrite (dispatch_endpoint H m path h) by assumption.
  rewrite Hthrow. unfold continue. rewrite closing_pending.
  repeat split.
  exists (take 5 (routes_of H)). split; reflexivity.
Qed.

(** C4 as stated fails: the fallback is registered last, after the
    error-handling middleware, so an exception it raised would find no
    error handler left: the answer would be the page of the framework's
    final handler (status 500, the stack trace as HTML), not the JSON
    answer of the middleware. *)
Lemma fallback_exception_is_not_intercepted :
  let H := handlers_with_failing_fallback plain_error in
  let req := request DELETE "/api/unknown" NoPayload in
  let w := boot default_env ∅ in
  last (routes_of handlers) = Some (Regular Star not_found)
  /\ last (routes_of H) = Some (Regular Star (h_not_found H))
  /\ unmatched req
  /\ h_not_found H req w = (Throw plain_error, w)
  /\ fst (dispatch (routes_of H) None req w) = (500, BHtml (err_stack plain_error))
  /\ fst (dispatch (routes_of H) None req w)
     <> (500, BJson (error_body (env w) plain_error))
  /\ json_of (snd (fst (dispatch (routes_of H) None req w))) = VUndefined.
Proof.
  repeat split; try reflexivity; try discriminate.
  unfold unmatched. repeat constructor.
Qed.

(** ** What the layers leave untouched *)

Section Frame.
Variable R : World -> World -> Prop.
Hypothesis R_refl : forall w, R w w.
Hypothesis R_trans : forall w1 w2 w3, R w1 w2 -> R w2 w3 -> R w1 w3.
Hypothesis R_console : forall w lines, R w (with_console lines w).

Lemma final_handler_keeps pending req w : R w (snd (final_handler pending req w)).
Proof.
  destruct pending as [err |]; [| apply R_refl].
  rewrite final_handler_error. unfold express_logged. cbn [snd].
  destruct (String.eqb _ "test"); [apply R_refl | apply R_console].
Qed.

Lemma dispatch_keeps stack :
  Forall (layer_keeps R) stack ->
  forall pending req w, R w (snd (dispatch stack pending req w)).
Proof.
  induction 1 as [| layer rest Hlayer _ IH]; intros pending req w.
  - apply final_handler_keeps.
  - simpl. destruct (pattern_match (layer_pattern layer) req); [| apply IH].
    destruct (decode_failure (layer_pattern layer) req); [apply IH |].
    destruct layer as [p h | p h], pending as [err |]; simpl in Hlayer; try apply IH.
    + unfold mbind, M_bind. specialize (Hlayer req w).
      destruct (h req w) as [[s b | | e] w1]; simpl in Hlayer.
      * exact Hlayer.
      * eapply R_trans; [exact Hlayer | apply IH].
      * eapply R_trans; [exact Hlayer | apply IH].
    + unfold mbind, M_bind. specialize (Hlayer err req w).
      destruct (h err req w) as [[s b | | e] w1]; simpl in Hlayer.
      * exact Hlayer.
      * eapply R_trans; [exact Hlayer | apply IH].
      * eapply R_trans; [exact Hlayer | apply IH].
Qed.
End Frame.

Lemma same_process_refl w : same_process w w.
Proof. repeat split. Qed.

Lemma same_process_trans w1 w2 w3 :
  same_process w1 w2 -> same_process w2 w3 -> same_process w1 w3.
Proof. unfold same_process. intros (? & ? & ?) (? & ? & ?). repeat split; congruence. Qed.

Lemma same_process_and_headers_refl w : same_process_and_headers w w.
Proof. repeat split. Qed.

Lemma same_process_and_headers_trans w1 w2 w3 :
  same_process_and_headers w1 w2 -> same_process_and_headers w2 w3 ->
  same_process_and_headers w1 w3.
Proof.
  unfold same_process_and_headers. intros [? ?] [? ?].
  split; [eapply same_process_trans; eassumption | congruence].
Qed.

Lemma same_process_console w lines : same_process w (with_console lines w).
Proof. repeat split. Qed.

Lemma same_process_and_headers_console w lines :
  same_process_and_headers w (with_console lines w).
Proof. repeat split. Qed.

Ltac keeps :=
  unfold layer_keeps; intros; simpl;
  unfold json_parser, urlencoded_parser, static_uploads, health, welcome, projects,
    students, contact, not_found, cors, limiter, helmet, compression,
    res_json, set_header, console_log, modify, gets, mbind, M_bind, mret, M_ret;
  repeat match goal with
         | |- context [match ?x with _ => _ end] => destruct x
         | |- context [if ?b then _ else _] => destruct b
         end;
  repeat split.

Ltac each_layer :=
  repeat first [apply List.Forall_nil | apply List.Forall_cons].

Lemma past_cors_keeps : Forall (layer_keeps same_process_and_headers) past_cors.
Proof.
  unfold past_cors, routes, routes_of, handlers. each_layer; keeps.
Qed.

Lemma cors_run req w :
  cors req w
  = (if is_preflight req then Respond 204 BEmpty else Next,
     with_headers
       (out_headers w ++ cors_headers (env w)
        ++ (if is_preflight req then preflight_headers req else []))%list w).
Proof.
  unfold cors, cors_headers, preflight_headers, is_preflight, set_header, modify, gets,
    mbind, M_bind, mret, M_ret, with_headers.
  destruct w as [e h c u b hs]. cbn.
  destruct (String.eqb (allowed_origin e) "*"), (req_method req); cbn;
    try (destruct (req_acrh req) as [a |]; [destruct (String.eqb a "") |]; cbn);
    rewrite <- ?app_assoc; reflexivity.
Qed.

Lemma cors_keeps : layer_keeps same_process (Regular Everywhere cors).
Proof. unfold layer_keeps. intros. rewrite cors_run. repeat split. Qed.

Lemma past_cors_keeps_process : Forall (layer_keeps same_process) past_cors.
Proof.
  eapply Forall_impl; [apply past_cors_keeps |].
  intros [p h | p h] Hl; simpl in *; intros; apply Hl.
Qed.

Lemma past_limiter_keeps : Forall (layer_keeps same_process) past_limiter.
Proof.
  change past_limiter with (Regular Everywhere cors :: past_cors).
  apply List.Forall_cons; [apply cors_keeps | apply past_cors_keeps_process].
Qed.

(** ** The limiter in front of everything else *)

Lemma dispatch_cons layer rest pending req :
  dispatch (layer :: rest) pending req
  = if pattern_match (layer_pattern layer) req then
      match decode_failure (layer_pattern layer) req with
      | Some failure => dispatch rest (Some (default failure pending)) req
      | None =>
          match layer, pending with
          | Regular _ h, None =>
              o ← h req;
              match o with
              | Respond s b => mret (s, b)
              | Next => dispatch rest None req
              | Throw e => dispatch rest (Some e) req
              end
          | OnError _ h, Some err =>
              o ← h err req;
              match o with
              | Respond s b => mret (s, b)
              | Next => dispatch rest None req
              | Throw e => dispatch rest (Some e) req
              end
          | Regular _ _, Some _ | OnError _ _, None => dispatch rest pending req
          end
      end
    else dispatch rest pending req.
Proof. reflexivity. Qed.

Lemma dispatch_pass (h : Handler) rest req w :
  (forall w', h req w' = (Next, w')) ->
  dispatch (Regular Everywhere h :: rest) None req w = dispatch rest None req w.
Proof.
  intros Hpass. rewrite dispatch_cons. cbn [layer_pattern pattern_match decode_failure].
  unfold mbind, M_bind. rewrite Hpass. reflexivity.
Qed.

Lemma limiter_run req w :
  limiter req w
  = (if (max <? hit_count (bump (hits w) (req_ip req) (req_time req)))%nat
     then Respond 429 (BJson limit_message) else Next,
     counted req w).
Proof.
  unfold limiter, counted, gets, modify, res_json, mbind, M_bind, mret, M_ret.
  destruct (max <? hit_count (bump (hits w) (req_ip req) (req_time req)))%nat;
    reflexivity.
Qed.

Lemma handle_limiter req w :
  handle req w
  = if rejected req w then (too_many_requests, counted req (begin_exchange w))
    else downstream req (admitted_world req w).
Proof.
  unfold handle, serve_with, downstream, rejected, admitted_world, under_api.
  change app with
    (Regular Everywhere helmet :: Regular Everywhere compression
     :: Regular (Mount "/api/") limiter :: past_limiter).
  rewrite 2 dispatch_pass by reflexivity.
  rewrite dispatch_cons. cbn [layer_pattern pattern_match decode_failure].
  destruct (mount_match "/api/" (req_path req)); [| reflexivity].
  unfold mbind, M_bind. rewrite limiter_run.
  change (hits (begin_exchange w)) with (hits w). cbn [andb].
  destruct (max <? hit_count (bump (hits w) (req_ip req) (req_time req)))%nat;
    reflexivity.
Qed.

Lemma finish_headers r : res_headers (fst (finish r)) = out_headers (snd r).
Proof. destruct r as [[s b] w]. reflexivity. Qed.

Lemma finish_world r : snd (finish r) = snd r.
Proof. destruct r as [[s b] w]. reflexivity. Qed.

Lemma downstream_keeps_process req w : same_process w (snd (downstream req w)).
Proof.
  unfold downstream. rewrite finish_world.
  apply (dispatch_keeps same_process same_process_refl same_process_trans
           same_process_console
           past_limiter past_limiter_keeps).
Qed.

Lemma downstream_headers req w :
  res_headers (fst (downstream req w))
  = (out_headers w ++ cors_headers (env w)
     ++ (if is_preflight req then preflight_headers req else []))%list.
Proof.
  unfold downstream. rewrite finish_headers.
  change past_limiter with (Regular Everywhere cors :: past_cors).
  rewrite dispatch_cons. cbn [layer_pattern pattern_match decode_failure].
  unfold mbind, M_bind. rewrite cors_run.
  destruct (is_preflight req); [reflexivity |].
  match goal with
  | |- out_headers (snd (dispatch past_cors None req ?w1)) = _ =>
      destruct (dispatch_keeps same_process_and_headers
                  same_process_and_headers_refl same_process_and_headers_trans
                  same_process_and_headers_console
                  past_cors past_cors_keeps None req w1) as [_ Hh]
  end.
  rewrite Hh. reflexivity.
Qed.

Lemma handle_keeps req w :
  env (snd (handle req w)) = env w
  /\ uploads (snd (handle req w)) = uploads w
  /\ hits (snd (handle req w))
     = if under_api req
       then <[req_ip req := bump (hits w) (req_ip req) (req_time req)]> (hits w)
       else hits w.
Proof.
  rewrite handle_limiter. unfold rejected, admitted_world.
  destruct (under_api req); cbn [andb].
  - destruct (max <? _)%nat; [repeat split |].
    destruct (downstream_keeps_process req (counted req (begin_exchange w)))
      as (He & Hh & Hu).
    rewrite He, Hh, Hu. repeat split.
  - destruct (downstream_keeps_process req (begin_exchange w)) as (He & Hh & Hu).
    rewrite He, Hh, Hu. repeat split.
Qed.

(** ** CORS *)

Lemma header_values_app k hs1 hs2 :
  header_values k (hs1 ++ hs2)%list = (header_values k hs1 ++ header_values k hs2)%list.
Proof. unfold header_values. rewrite List.filter_app, map_app. reflexivity. Qed.

Lemma cors_headers_origin e :
  header_values "Access-Control-Allow-Origin" (cors_headers e) = [allowed_origin e]
  /\ header_values "Access-Control-Allow-Credentials" (cors_headers e) = ["true"].
Proof.
  unfold cors_headers. destruct (String.eqb (allowed_origin e) "*"); split; reflexivity.
Qed.

Lemma preflight_headers_origin req :
  header_values "Access-Control-Allow-Origin" (preflight_headers req) = []
  /\ header_values "Access-Control-Allow-Credentials" (preflight_headers req) = [].
Proof.
  unfold preflight_headers.
  destruct (req_acrh req) as [hs |]; [destruct (String.eqb hs "") |]; split; reflexivity.
Qed.

(** C5, as the code has it. The allowed origin is a fixed string
    (FRONTEND_URL, default http://localhost:3000): every response that
    comes from the CORS stage or from behind it carries
    Access-Control-Allow-Origin set to that one origin together with
    Access-Control-Allow-Credentials: true, whatever Origin the request
    announced, so no other origin is ever named; a request the limiter
    turns away is answered before the CORS stage and carries no CORS
    header at all. *)
Theorem cors_names_the_configured_origin req w :
  let res := fst (handle req w) in
  if rejected req w
  then res = too_many_requests
       /\ header_values "Access-Control-Allow-Origin" (res_headers res) = []
  else header_values "Access-Control-Allow-Origin" (res_headers res)
       = [allowed_origin (env w)]
       /\ header_values "Access-Control-Allow-Credentials" (res_headers res) = ["true"].
Proof.
  cbv zeta. rewrite handle_limiter.
  destruct (rejected req w); [split; reflexivity |].
  rewrite downstream_headers.
  assert (Hnone : out_headers (admitted_world req w) = []).
  { unfold admitted_world. destruct (under_api req); reflexivity. }
  assert (Henv : env (admitted_world req w) = env w).
  { unfold admitted_world. destruct (under_api req); reflexivity. }
  rewrite Hnone, Henv, !header_values_app.
  destruct (cors_headers_origin (env w)) as [-> ->].
  destruct (is_preflight req); [| split; reflexivity].
  destruct (preflight_headers_origin req) as [-> ->]. split; reflexivity.
Qed.

(** C5 as stated fails on both counts: a request announcing another origin
    is answered with an allow header (naming the configured origin), and
    the 101st request of a window from the configured origin is answered
    by the limiter with no CORS header. *)
Lemma cors_header_does_not_follow_the_origin :
  let w := boot default_env ∅ in
  let foreign := request_from "http://evil.example" GET "/api/projects" in
  let own := request_from "http://localhost:3000" GET "/api/projects" in
  allowed_origin (env w) = "http://localhost:3000"
  /\ req_origin foreign <> Some (allowed_origin (env w))
  /\ header_values "Access-Control-Allow-Origin" (res_headers (fst (handle foreign w)))
     = ["http://localhost:3000"]
  /\ req_origin own = Some (allowed_origin (env w))
  /\ (res_headers <$> last (run w (repeat own 101))) = Some [].
Proof. repeat split; try reflexivity. discriminate. Qed.

(** ** The limiter's window *)

Lemma bump_live store a t c reset :
  store !! a = Some (mkHit c reset) -> t < reset ->
  bump store a t = mkHit (S c) reset.
Proof.
  intros Hin Hlt. unfold bump, live_hit. rewrite Hin. cbn.
  destruct (Z.ltb_spec t reset); [reflexivity | lia].
Qed.

Lemma bump_fresh store a t :
  live_hit store a t = None -> bump store a t = mkHit 1 (t + windowMs).
Proof. intros Hnone. unfold bump. rewrite Hnone. reflexivity. Qed.

Lemma limited_from_spec a req :
  limited_from a req = true <-> req_ip req = a /\ under_api req = true.
Proof. unfold limited_from. rewrite andb_true_iff, String.eqb_eq. tauto. Qed.

Lemma run_cons w req rest :
  run w (req :: rest) = fst (handle req w) :: run (snd (handle req w)) rest.
Proof. simpl. destruct (handle req w). reflexivity. Qed.

Lemma seen_cons a req rest :
  seen a (req :: rest) = ((if limited_from a req then 1 else 0) + seen a rest)%nat.
Proof. unfold seen. simpl. destruct (limited_from a req); reflexivity. Qed.

(** One exchange moves the record of [a] by one if it is [a]'s and under
    the mount, and leaves it otherwise. *)
Lemma handle_counts a req w c reset :
  hits w !! a = Some (mkHit c reset) ->
  (limited_from a req = true -> req_time req < reset) ->
  hits (snd (handle req w)) !! a
  = Some (mkHit (c + (if limited_from a req then 1 else 0)) reset).
Proof.
  intros Hin Htime. destruct (handle_keeps req w) as (_ & _ & ->).
  unfold limited_from in *. destruct (under_api req).
  - destruct (String.eqb_spec (req_ip req) a) as [-> | Hne]; cbn [andb] in *.
    + rewrite lookup_insert_eq, (bump_live _ _ _ c reset) by auto.
      rewrite Nat.add_1_r. reflexivity.
    + rewrite lookup_insert_ne, Nat.add_0_r by assumption. assumption.
  - rewrite andb_false_r, Nat.add_0_r. assumption.
Qed.

Lemma handle_in_window a req w c reset :
  hits w !! a = Some (mkHit c reset) ->
  limited_from a req = true -> req_time req < reset ->
  fst (handle req w)
  = if (max <? S c)%nat then too_many_requests
    else fst (downstream req (admitted_world req w)).
Proof.
  intros Hin Hlim Htime. apply limited_from_spec in Hlim as [<- Hapi].
  rewrite handle_limiter. unfold rejected.
  rewrite Hapi, (bump_live _ _ _ c reset) by assumption. cbn [andb hit_count].
  destruct (max <? S c)%nat; reflexivity.
Qed.

Lemma run_in_window a reqs :
  forall w c reset i req,
    hits w !! a = Some (mkHit c reset) ->
    (forall r, In r reqs -> limited_from a r = true -> req_time r < reset) ->
    reqs !! i = Some req -> limited_from a req = true ->
    run w reqs !! i
    = Some (if (max <? c + seen a (take (S i) reqs))%nat then too_many_requests
            else fst (downstream req (admitted_world req (world_after w (take i reqs))))).
Proof.
  induction reqs as [| r0 rest IH]; intros w c reset i req Hin Htime Hi Hlim.
  - discriminate Hi.
  - rewrite run_cons. destruct i as [| i].
    + injection Hi as ->. cbn [lookup list_lookup take world_after].
      rewrite seen_cons, Hlim. unfold seen. cbn [List.filter length].
      rewrite Nat.add_0_r, Nat.add_1_r.
      f_equal. apply (handle_in_window a req w c reset); auto.
      apply Htime; [left; reflexivity | assumption].
    + cbn [lookup list_lookup] in Hi |- *.
      change (take (S (S i)) (r0 :: rest)) with (r0 :: take (S i) rest).
      change (take (S i) (r0 :: rest)) with (r0 :: take i rest).
      rewrite seen_cons, Nat.add_assoc. cbn [world_after].
      apply (IH _ _ reset); auto.
      * apply handle_counts; [assumption |].
        intros Hl. apply Htime; [left; reflexivity | assumption].
      * intros r Hr. apply Htime. right. assumption.
Qed.

Lemma run_lookup reqs :
  forall w i req, reqs !! i = Some req ->
    run w reqs !! i = Some (fst (handle req (world_after w (take i reqs)))).
Proof.
  induction reqs as [| r0 rest IH]; intros w i req Hi; [discriminate Hi |].
  rewrite run_cons. destruct i as [| i].
  - injection Hi as ->. reflexivity.
  - cbn [lookup list_lookup] in Hi |- *.
    change (take (S i) (r0 :: rest)) with (r0 :: take i rest). cbn [world_after].
    apply IH, Hi.
Qed.

Lemma handle_outside req w :
  under_api req = false -> handle req w = downstream req (begin_exchange w).
Proof.
  intros Hout. rewrite handle_limiter. unfold rejected, admitted_world.
  rewrite Hout. reflexivity.
Qed.

(** No stage behind the limiter answers 429. *)
Lemma dispatch_not_429 stack :
  Forall layer_not_429 stack ->
  forall pending req w,
    fst (fst (dispatch (stack ++ closing_layers handlers)%list pending req w)) <> 429.
Proof.
  induction 1 as [| layer rest Hlayer _ IH]; intros pending req w.
  - cbn [Datatypes.app]. destruct pending as [err |].
    + rewrite closing_pending. discriminate.
    + destruct (decodable (req_path req)) eqn:Hdec.
      * rewrite closing_none by assumption. discriminate.
      * rewrite closing_undecodable, final_handler_error by assumption. discriminate.
  - cbn [Datatypes.app]. rewrite dispatch_cons.
    destruct (pattern_match (layer_pattern layer) req); [| apply IH].
    destruct (decode_failure (layer_pattern layer) req); [apply IH |].
    destruct layer as [p h | p h], pending as [err |]; simpl in Hlayer; try apply IH.
    + unfold mbind, M_bind. destruct (h req w) as [[s b | | e] w1] eqn:Hrun.
      * apply (Hlayer _ _ _ _ _ Hrun).
      * apply IH.
      * apply IH.
    + unfold mbind, M_bind. destruct (h err req w) as [[s b | | e] w1] eqn:Hrun.
      * apply (Hlayer _ _ _ _ _ _ Hrun).
      * apply IH.
      * apply IH.
Qed.

Ltac not_429 :=
  unfold layer_not_429; intros;
  match goal with
  | Hrun : _ = (Respond _ _, _) |- _ =>
      unfold json_parser, urlencoded_parser, static_uploads, health, welcome, projects,
        students, contact, res_json, console_log, modify, gets,
        mbind, M_bind, mret, M_ret in Hrun;
      repeat match type of Hrun with
             | context [match ?x with _ => _ end] => destruct x
             | context [if ?b then _ else _] => destruct b
             end;
      inversion Hrun; subst; discriminate
  end.

Lemma downstream_not_429 req w : res_status (fst (downstream req w)) <> 429.
Proof.
  assert (Hall : Forall layer_not_429
                   [Regular Everywhere cors;
                    Regular Everywhere json_parser;
                    Regular Everywhere urlencoded_parser;
                    Regular (Mount "/uploads") static_uploads;
                    Regular (Route GET "/api/health") health;
                    Regular (Route GET "/api") welcome;
                    Regular (Route GET "/api/projects") projects;
                    Regular (Route GET "/api/students") students;
                    Regular (Route POST "/api/contact") contact]).
  { each_layer; try solve [not_429].
    unfold layer_not_429. intros r w0 s b w' Hrun. rewrite cors_run in Hrun.
    destruct (is_preflight r); inversion Hrun; subst; discriminate. }
  pose proof (dispatch_not_429 _ Hall None req w) as Hne.
  unfold downstream. destruct (dispatch past_limiter None req w) as [[s b] w1] eqn:Hrun.
  change (dispatch past_limiter None req w) with
    (dispatch ([Regular Everywhere cors;
                Regular Everywhere json_parser;
                Regular Everywhere urlencoded_parser;
                Regular (Mount "/uploads") static_uploads;
                Regular (Route GET "/api/health") health;
                Regular (Route GET "/api") welcome;
                Regular (Route GET "/api/projects") projects;
                Regular (Route GET "/api/students") students;
                Regular (Route POST "/api/contact") contact]
               ++ closing_layers handlers)%list None req w) in Hrun.
  rewrite Hrun in Hne. exact Hne.
Qed.

(** C2, as the code has it. The limiter is mounted on /api/, which the
    router takes for the path /api itself and every path below it, in any
    letter case. From the first request of an address under that mount,
    the requests of that address under the mount that arrive within 15
    minutes of it are counted, whatever other traffic comes in between:
    the first 100 go on to the stages behind the limiter, the 101st and
    later ones receive the fixed rejection (status 429, the fixed message).
    A request outside the mount always goes on, and nothing behind the
    limiter answers 429. *)
Theorem limiter_admits_100_per_window a w first rest :
  limited_from a first = true ->
  live_hit (hits w) a (req_time first) = None ->
  (forall r, In r rest -> limited_from a r = true ->
             req_time r < req_time first + windowMs) ->
  (forall i req,
     (first :: rest) !! i = Some req -> limited_from a req = true ->
     run w (first :: rest) !! i
     = Some (if (max <? seen a (take (S i) (first :: rest)))%nat
             then too_many_requests
             else fst (downstream req
                         (admitted_world req (world_after w (take i (first :: rest)))))))
  /\ (forall i req,
        (first :: rest) !! i = Some req -> under_api req = false ->
        run w (first :: rest) !! i
        = Some (fst (downstream req
                       (begin_exchange (world_after w (take i (first :: rest)))))))
  /\ (forall req w', res_status (fst (downstream req w')) <> 429)
  /\ too_many_requests = mkResponse 429 [] (BJson limit_message).
Proof.
  intros Hfirst Hfresh Htime.
  split; [| split; [| split; [apply downstream_not_429 | reflexivity]]].
  - intros i req Hi Hlim.
    destruct i as [| i].
    + injection Hi as <-. rewrite run_cons. cbn [lookup list_lookup take world_after].
      rewrite seen_cons, Hfirst. unfold seen. cbn [List.filter length].
      f_equal. rewrite handle_limiter. unfold rejected.
      apply limited_from_spec in Hfirst as [<- Hapi].
      rewrite Hapi, bump_fresh by assumption. reflexivity.
    + rewrite run_cons. cbn [lookup list_lookup] in Hi |- *.
      change (take (S (S i)) (first :: rest)) with (first :: take (S i) rest).
      change (take (S i) (first :: rest)) with (first :: take i rest).
      rewrite seen_cons, Hfirst. cbn [world_after].
      apply (run_in_window a rest _ 1%nat (req_time first + windowMs)); auto.
      destruct (handle_keeps first w) as (_ & _ & ->).
      apply limited_from_spec in Hfirst as [<- Hapi].
      rewrite Hapi, lookup_insert_eq, bump_fresh by assumption. reflexivity.
  - intros i req Hi Hout.
    rewrite (run_lookup _ _ _ _ Hi). f_equal.
    rewrite handle_outside by assumption. reflexivity.
Qed.

(** C2 as stated fails in its last part: /api is not prefixed with /api/,
    and neither is /API/students, yet both are under the limiter's mount,
    and the 101st request for either within the window is rejected. *)
Lemma path_outside_the_prefix_is_limited :
  let w := boot default_env ∅ in
  let root := request GET "/api" NoPayload in
  let upper := request GET "/API/students" NoPayload in
  prefixed_with_api root = false
  /\ prefixed_with_api upper = false
  /\ (res_status <$> run w (repeat root 101) !! 99%nat) = Some 200
  /\ run w (repeat root 101) !! 100%nat = Some too_many_requests
  /\ run w (repeat upper 101) !! 100%nat = Some too_many_requests.
Proof. repeat split; reflexivity. Qed.

(** ** The data endpoints seen through the whole pipeline *)

Lemma dispatch_step p h rest req w :
  decode_failure p req = None ->
  dispatch (Regular p h :: rest) None req w
  = if pattern_match p req then continue rest req (h req w)
    else dispatch rest None req w.
Proof.
  intros Hdec. rewrite dispatch_cons. cbn [layer_pattern]. rewrite Hdec.
  destruct (pattern_match p req); [| reflexivity].
  unfold mbind, M_bind, continue. destruct (h req w) as [[s b | | e] w1]; reflexivity.
Qed.

Lemma dispatch_skip_pending p h rest err req w :
  dispatch (Regular p h :: rest) (Some err) req w = dispatch rest (Some err) req w.
Proof.
  rewrite dispatch_cons. cbn [layer_pattern].
  destruct (pattern_match p req), (decode_failure p req); reflexivity.
Qed.

Lemma json_parser_run req w :
  json_parser req w
  = match req_payload req with
    | JsonPayload v => (Next, with_body v w)
    | BadJson e => (Throw e, w)
    | _ => (Next, with_body (body_or_empty (req_body w)) w)
    end.
Proof. unfold json_parser. destruct (req_payload req); reflexivity. Qed.

Lemma urlencoded_parser_run req w :
  urlencoded_parser req w
  = match req_payload req with
    | FormPayload v => (Next, with_body v w)
    | BadForm e => (Throw e, w)
    | _ => (Next, with_body (body_or_empty (req_body w)) w)
    end.
Proof. unfold urlencoded_parser. destruct (req_payload req); reflexivity. Qed.

Lemma dispatch_routes_pending H err req w :
  dispatch (routes_of H) (Some err) req w
  = ((500, BJson (error_body (env w) err)), error_logged err w).
Proof.
  unfold routes_of. rewrite 5 dispatch_skip_pending. apply (closing_pending H).
Qed.

(** Behind the limiter, a request that is no preflight and not for the
    uploads directory either fails in a body parser, and is answered by the
    error-handling middleware, or arrives at the endpoints. *)
Lemma downstream_reaches_routes req w :
  is_preflight req = false ->
  mount_match "/uploads" (req_path req) = false ->
  downstream req w
  = match req_payload req with
    | BadJson err =>
        finish ((500, BJson (error_body (env w) err)), error_logged err (after_cors w))
    | BadForm err =>
        finish ((500, BJson (error_body (env w) err)),
                error_logged err (snd (json_parser req (after_cors w))))
    | _ => finish (dispatch routes None req (after_parsers req w))
    end.
Proof.
  intros Hpre Hup. unfold downstream, past_limiter, after_parsers.
  cbn [Datatypes.app].
  rewrite dispatch_step by reflexivity. cbn [pattern_match decode_failure]. rewrite cors_run, Hpre, app_nil_r.
  fold (after_cors w). cbn [continue].
  rewrite dispatch_step by reflexivity. cbn [pattern_match decode_failure].
  rewrite json_parser_run.
  destruct (req_payload req) as [| v | v | err | err] eqn:Hpay; cbn [continue snd];
    rewrite ?dispatch_skip_pending, ?dispatch_step by reflexivity; cbn [pattern_match decode_failure];
    rewrite ?urlencoded_parser_run, ?Hpay; cbn [continue snd];
    rewrite ?dispatch_skip_pending, ?dispatch_step by reflexivity; cbn [pattern_match decode_failure];
    rewrite ?Hup; unfold routes; rewrite ?dispatch_routes_pending;
    reflexivity.
Qed.

Lemma endpoint_not_uploads m path req :
  In (m, path) endpoints -> is_for m path req ->
  is_preflight req = false /\ mount_match "/uploads" (req_path req) = false.
Proof.
  intros Hin [Hm Hp]. apply route_path_match_spec in Hp.
  unfold is_preflight, mount_match. rewrite Hm.
  simpl in Hin.
  destruct Hin as [Heq | [Heq | [Heq | [Heq | [Heq | []]]]]];
    inversion Heq; subst; destruct Hp as [-> | ->]; split; reflexivity.
Qed.

Lemma finish_fst r : fst (finish r) = mkResponse (fst (fst r)) (out_headers (snd r)) (snd (fst r)).
Proof. destruct r as [[s b] w]. reflexivity. Qed.

Lemma downstream_endpoint path body :
  In (GET, path) endpoints ->
  (forall req w, is_for GET path req ->
     dispatch routes None req w = ((200, BJson body), w)) ->
  forall req w, is_for GET path req ->
    res_status (fst (downstream req w)) = 200 ->
    res_body (fst (downstream req w)) = BJson body.
Proof.
  intros Hin Hroute req w Hfor.
  destruct (endpoint_not_uploads _ _ _ Hin Hfor) as [Hpre Hup].
  rewrite downstream_reaches_routes by assumption.
  destruct (req_payload req); rewrite ?Hroute by assumption; rewrite finish_fst;
    cbn [fst snd res_status res_body]; intros Hstatus;
    first [reflexivity | discriminate Hstatus].
Qed.

Lemma downstream_projects req w :
  is_for GET "/api/projects" req ->
  res_status (fst (downstream req w)) = 200 ->
  res_body (fst (downstream req w)) = BJson projects_body.
Proof.
  apply downstream_endpoint; [simpl; auto | apply dispatch_projects].
Qed.

Lemma downstream_students req w :
  is_for GET "/api/students" req ->
  res_status (fst (downstream req w)) = 200 ->
  res_body (fst (downstream req w)) = BJson students_body.
Proof.
  apply downstream_endpoint; [simpl; auto 6 | apply dispatch_students].
Qed.

Lemma handle_answers path body :
  (forall req w, is_for GET path req ->
     res_status (fst (downstream req w)) = 200 ->
     res_body (fst (downstream req w)) = BJson body) ->
  forall req w, is_for GET path req ->
    res_status (fst (handle req w)) = 200 ->
    res_body (fst (handle req w)) = BJson body.
Proof.
  intros Hdown req w Hfor. rewrite handle_limiter.
  destruct (rejected req w); [discriminate | apply Hdown, Hfor].
Qed.

(** C8. The Project and Student data are the same for any two requests:
    whatever was served before the first and between the two (a POST to
    /api/contact included), two answers to GET /api/projects carry the same
    data, and so do two answers to GET /api/students. The records are
    literals of the handlers; nothing in the world a handler can write
    holds them. *)
Theorem data_identical_across_requests w (before between : list Request) req1 req2 :
  let w1 := world_after w before in
  let w2 := world_after (snd (handle req1 w1)) between in
  let res1 := fst (handle req1 w1) in
  let res2 := fst (handle req2 w2) in
  (is_for GET "/api/projects" req1 -> is_for GET "/api/projects" req2 ->
   (res_status res1 = 200 -> res_status res2 = 200 ->
    res_body res1 = BJson projects_body /\ res_body res2 = res_body res1)
   /\ fst (dispatch routes None req1 w1) = (200, BJson projects_body)
   /\ fst (dispatch routes None req2 w2) = fst (dispatch routes None req1 w1))
  /\
  (is_for GET "/api/students" req1 -> is_for GET "/api/students" req2 ->
   (res_status res1 = 200 -> res_status res2 = 200 ->
    res_body res1 = BJson students_body /\ res_body res2 = res_body res1)
   /\ fst (dispatch routes None req1 w1) = (200, BJson students_body)
   /\ fst (dispatch routes None req2 w2) = fst (dispatch routes None req1 w1)).
Proof.
  cbv zeta. split; intros H1 H2.
  - split; [| rewrite !dispatch_projects by assumption; split; reflexivity].
    intros Hs1 Hs2.
    rewrite (handle_answers _ _ downstream_projects req1) by assumption.
    rewrite (handle_answers _ _ downstream_projects req2) by assumption.
    split; reflexivity.
  - split; [| rewrite !dispatch_students by assumption; split; reflexivity].
    intros Hs1 Hs2.
    rewrite (handle_answers _ _ downstream_students req1) by assumption.
    rewrite (handle_answers _ _ downstream_students req2) by assumption.
    split; reflexivity.
Qed.

(** ** From the endpoints to the whole pipeline *)

Lemma handle_reaches_routes req w :
  rejected req w = false -> reaches_routes req ->
  handle req w = finish (dispatch routes None req (after_parsers req (admitted_world req w))).
Proof.
  intros Hadm (Hpre & Hup & Hpay). rewrite handle_limiter, Hadm.
  rewrite downstream_reaches_routes by assumption.
  destruct (req_payload req); (contradiction || reflexivity).
Qed.

Lemma after_parsers_keeps req w :
  env (after_parsers req w) = env w
  /\ console (after_parsers req w) = console w
  /\ out_headers (after_parsers req w) = (out_headers w ++ cors_headers (env w))%list.
Proof.
  unfold after_parsers. rewrite json_parser_run, urlencoded_parser_run.
  destruct (req_payload req); repeat split.
Qed.

(** What does not get there: a preflight is answered by the CORS stage. *)
Example preflight_is_answered_by_cors :
  let res := fst (handle (request OPTIONS "/api/unknown" NoPayload) (boot default_env ∅)) in
  res_status res = 204 /\ res_body res = BEmpty.
Proof. split; reflexivity. Qed.

Lemma parsers_leave_object req w fields :
  req_payload req = JsonPayload (VObj fields) ->
  req_body (after_parsers req w) = VObj fields.
Proof.
  intros Hpay. unfold after_parsers.
  rewrite json_parser_run, urlencoded_parser_run, Hpay. reflexivity.
Qed.

(** A complete contact form sent as JSON is accepted by the whole pipeline
    unless the limiter turns the request away. *)
Lemma complete_form_end_to_end req w fields :
  rejected req w = false ->
  is_for POST "/api/contact" req ->
  req_payload req = JsonPayload (VObj fields) ->
  (forall k, In k contact_fields -> filled (VObj fields) k) ->
  fst (handle req w) = mkResponse 200 (cors_headers (env w)) (BJson contact_ok_body).
Proof.
  intros Hadm Hfor Hpay Hall.
  destruct (endpoint_not_uploads POST "/api/contact" req) as [Hpre Hup];
    [simpl; auto 10 | assumption |].
  rewrite handle_reaches_routes;
    [| assumption | repeat split; try assumption; rewrite Hpay; exact I].
  rewrite dispatch_contact by assumption.
  rewrite contact_accepts.
  - unfold continue. rewrite finish_fst. cbn [fst snd].
    change (out_headers (contact_logged ?x)) with (out_headers x).
    destruct (after_parsers_keeps req (admitted_world req w)) as (_ & _ & ->).
    unfold admitted_world. destruct (under_api req); reflexivity.
  - intros k Hk. rewrite (parsers_leave_object _ _ fields) by assumption.
    apply filled_truthy, Hall, Hk.
Qed.

(** An accepted contact message, end to end. *)
Example contact_end_to_end :
  let w := boot default_env ∅ in
  let out := handle (request POST "/api/contact" (JsonPayload contact_form)) w in
  fst out = mkResponse 200 (cors_headers default_env) (BJson contact_ok_body)
  /\ console (snd out)
     = [Stdout "📮 Nuevo mensaje de contacto:"
          (VObj [("name", VStr "Aiko"); ("email", VStr "aiko@example.com");
                 ("subject", VStr "Hola")])].
Proof. split; reflexivity. Qed.

(** ** The statements at work on concrete exchanges *)

Lemma contact_requires_all_fields_witness :
  dispatch routes None (request POST "/api/contact" (JsonPayload contact_form))
    (world_with_body contact_form)
  = ((200, BJson contact_ok_body), contact_logged (world_with_body contact_form))
  /\ dispatch routes None (request POST "/api/contact" (JsonPayload partial_form))
       (world_with_body partial_form)
     = ((400, BJson fields_required_body), world_with_body partial_form).
Proof.
  split.
  - apply (contact_requires_all_fields
             (request POST "/api/contact" (JsonPayload contact_form))
             (world_with_body contact_form)).
    + split; reflexivity.
    + split; discriminate.
    + intros k Hk. simpl in Hk.
      destruct Hk as [<- | [<- | [<- | [<- | []]]]];
        eexists; (split; [reflexivity | discriminate]).
  - apply (contact_requires_all_fields
             (request POST "/api/contact" (JsonPayload partial_form))
             (world_with_body partial_form)).
    + split; reflexivity.
    + split; discriminate.
    + exists "email". split; [simpl; auto | left; reflexivity].
Defined.

Lemma contact_check_is_falsiness_witness :
  dispatch routes None (request POST "/api/contact" (JsonPayload zero_form))
    (world_with_body zero_form)
  = ((400, BJson fields_required_body), world_with_body zero_form)
  /\ dispatch routes None (request POST "/api/contact" (JsonPayload blank_form))
       (world_with_body blank_form)
     = ((200, BJson contact_ok_body), contact_logged (world_with_body blank_form)).
Proof.
  split.
  - assert (Hfor : is_for POST "/api/contact"
                     (request POST "/api/contact" (JsonPayload zero_form))).
    { split; reflexivity. }
    assert (Hparsed : parsed (world_with_body zero_form)).
    { split; discriminate. }
    apply (proj1 (contact_check_is_falsiness _ _ Hfor Hparsed) "subject" (VNum (of_Z 0))).
    + simpl; auto.
    + simpl; auto.
    + reflexivity.
    + reflexivity.
  - assert (Hfor : is_for POST "/api/contact"
                     (request POST "/api/contact" (JsonPayload blank_form))).
    { split; reflexivity. }
    assert (Hparsed : parsed (world_with_body blank_form)).
    { split; discriminate. }
    apply (proj2 (contact_check_is_falsiness _ _ Hfor Hparsed) "name" "   ").
    + simpl; auto.
    + reflexivity.
    + split; [discriminate | reflexivity].
    + intros k Hk Hne. simpl in Hk.
      destruct Hk as [<- | [<- | [<- | [<- | []]]]];
        eexists; (split; [reflexivity | discriminate]).
Defined.

Lemma projects_count_matches_data_witness :
  exists data,
    dispatch routes None (request GET "/api/projects" NoPayload) (boot default_env ∅)
    = ((200, BJson (VObj [("success", VBool true); ("data", VArr data);
                          ("count", VNum (of_nat (length data)))])),
       boot default_env ∅)
    /\ length data = 2%nat
    /\ Forall (fun p => keys_of p = project_keys) data.
Proof.
  apply (projects_count_matches_data (request GET "/api/projects" NoPayload)
           (boot default_env ∅)).
  split; reflexivity.
Defined.

Lemma students_levels_in_range_witness :
  exists data,
    dispatch routes None (request GET "/api/students/" NoPayload) (boot default_env ∅)
    = ((200, BJson (VObj [("success", VBool true); ("data", VArr data);
                          ("count", VNum (of_nat (length data)))])),
       boot default_env ∅)
    /\ length data = 2%nat
    /\ Forall (fun s => keys_of s = student_keys
                        /\ exists pairs, get s "skills" = VArr pairs
                                         /\ pairs <> []
                                         /\ Forall skill_pair pairs) data.
Proof.
  apply (students_levels_in_range (request GET "/api/students/" NoPayload)
           (boot default_env ∅)).
  split; reflexivity.
Defined.

Lemma limiter_admits_100_per_window_witness :
  let w := boot default_env ∅ in
  let first := request GET "/api/students" NoPayload in
  (res_status <$> run w (first :: repeat first 100) !! 99%nat) = Some 200
  /\ run w (first :: repeat first 100) !! 100%nat = Some too_many_requests.
Proof.
  cbv zeta.
  assert (Hwindow :
    forall r, In r (repeat (request GET "/api/students" NoPayload) 100) ->
              limited_from "203.0.113.7" r = true ->
              req_time r < req_time (request GET "/api/students" NoPayload) + windowMs).
  { intros r Hr _. apply repeat_spec in Hr. subst r. reflexivity. }
  pose proof (proj1 (limiter_admits_100_per_window "203.0.113.7" (boot default_env ∅)
                       (request GET "/api/students" NoPayload)
                       (repeat (request GET "/api/students" NoPayload) 100)
                       eq_refl eq_refl Hwindow)) as Hrun.
  split.
  - rewrite (Hrun 99%nat (request GET "/api/students" NoPayload) eq_refl eq_refl).
    reflexivity.
  - exact (Hrun 100%nat (request GET "/api/students" NoPayload) eq_refl eq_refl).
Defined.

Lemma error_detail_needs_explicit_development_witness :
  exists body,
    error_middleware sample_error (request POST "/api/contact" (BadJson sample_error))
      (boot development_env ∅)
    = (Respond 500 (BJson body), error_logged sample_error (boot development_env ∅))
    /\ get body "error" = VStr (err_message sample_error).
Proof.
  destruct (error_detail_needs_explicit_development sample_error
              (request POST "/api/contact" (BadJson sample_error))
              (boot development_env ∅))
    as (body & Hrun & _ & _ & Hdetail & _).
  exists body. split; [exact Hrun | apply Hdetail; reflexivity].
Defined.

Lemma endpoint_exception_is_intercepted_witness :
  dispatch (routes_of handlers) None (request POST "/api/contact" NoPayload)
    (boot default_env ∅)
  = ((500, BJson (error_body default_env destructure_error)),
     error_logged destructure_error (boot default_env ∅)).
Proof.
  refine (proj1 (endpoint_exception_is_intercepted handlers POST "/api/contact" contact
                   (request POST "/api/contact" NoPayload) (boot default_env ∅)
                   destructure_error (boot default_env ∅) _ _ _ _)).
  - simpl; auto 10.
  - reflexivity.
  - split; reflexivity.
  - reflexivity.
Defined.

Lemma cors_names_the_configured_origin_witness :
  let res := fst (handle (request_from "http://evil.example" GET "/api/health")
                    (boot default_env ∅)) in
  header_values "Access-Control-Allow-Origin" (res_headers res) = ["http://localhost:3000"]
  /\ header_values "Access-Control-Allow-Credentials" (res_headers res) = ["true"].
Proof.
  exact (cors_names_the_configured_origin
           (request_from "http://evil.example" GET "/api/health") (boot default_env ∅)).
Defined.

Lemma data_identical_across_requests_witness :
  let w := boot default_env ∅ in
  let post := request POST "/api/contact" (JsonPayload contact_form) in
  let get_projects := request GET "/api/projects" NoPayload in
  let w1 := world_after w [post] in
  let w2 := world_after (snd (handle get_projects w1))
              [post; request GET "/api/students" NoPayload] in
  res_body (fst (handle get_projects w1)) = BJson projects_body
  /\ res_body (fst (handle get_projects w2)) = res_body (fst (handle get_projects w1)).
Proof.
  cbv zeta.
  apply (proj1 (proj1 (data_identical_across_requests (boot default_env ∅)
                         [request POST "/api/contact" (JsonPayload contact_form)]
                         [request POST "/api/contact" (JsonPayload contact_form);
                          request GET "/api/students" NoPayload]
                         (request GET "/api/projects" NoPayload)
                         (request GET "/api/projects" NoPayload))
                  (conj eq_refl eq_refl) (conj eq_refl eq_refl)));
    reflexivity.
Defined.

(** * Further properties of the pipeline *)

(** ** Requests the stack cannot tell apart *)

Lemma closing_none_cases H req w :
  dispatch (closing_layers H) None req w
  = match decode_failure Star req with
    | Some failure => final_handler (Some failure) req w
    | None => continue [] req (h_not_found H req w)
    end.
Proof.
  unfold decode_failure. destruct (decodable (req_path req)) eqn:Hdec.
  - apply closing_none, Hdec.
  - apply closing_undecodable, Hdec.
Qed.

Lemma closing_agrees r1 r2 pending w :
  decode_failure Star r1 = decode_failure Star r2 ->
  dispatch (closing_layers handlers) pending r1 w
  = dispatch (closing_layers handlers) pending r2 w.
Proof.
  intros Hstar. destruct pending as [err |].
  - rewrite !closing_pending. reflexivity.
  - rewrite !closing_none_cases, Hstar.
    destruct (decode_failure Star r2); [| reflexivity].
    rewrite !final_handler_error. reflexivity.
Qed.

(** Two requests that every layer in front of the closing ones treats
    alike come to the closing layers in the same state, if they come that
    far; what holds of the closing layers' answers to them then holds of the
    whole stack's. *)
Section Agreement.
Variables r1 r2 : Request.
Variable Q : (Z * Body) * World -> (Z * Body) * World -> Prop.
Hypothesis Q_refl : forall x, Q x x.
Hypothesis Q_closing :
  forall pending w,
    Q (dispatch (closing_layers handlers) pending r1 w)
      (dispatch (closing_layers handlers) pending r2 w).

Lemma dispatch_related prefix :
  Forall (layer_agrees r1 r2) prefix ->
  forall pending w,
    Q (dispatch (prefix ++ closing_layers handlers)%list pending r1 w)
      (dispatch (prefix ++ closing_layers handlers)%list pending r2 w).
Proof.
  induction 1 as [| layer rest (Hmatch & Hdecode & Hrun) _ IH]; intros pending w.
  - cbn [Datatypes.app]. apply Q_closing.
  - cbn [Datatypes.app]. rewrite !dispatch_cons, Hmatch, Hdecode.
    destruct (pattern_match (layer_pattern layer) r2); [| apply IH].
    destruct (decode_failure (layer_pattern layer) r2); [apply IH |].
    specialize (Hrun eq_refl).
    destruct layer as [p h | p h], pending as [err |]; try apply IH.
    + unfold mbind, M_bind. rewrite Hrun.
      destruct (h r2 w) as [[s b | | e] w1]; [apply Q_refl | apply IH | apply IH].
    + unfold mbind, M_bind. rewrite Hrun.
      destruct (h err r2 w) as [[s b | | e] w1]; [apply Q_refl | apply IH | apply IH].
Qed.
End Agreement.

Lemma dispatch_agrees r1 r2 prefix :
  decode_failure Star r1 = decode_failure Star r2 ->
  Forall (layer_agrees r1 r2) prefix ->
  forall pending w,
    dispatch (prefix ++ closing_layers handlers)%list pending r1 w
    = dispatch (prefix ++ closing_layers handlers)%list pending r2 w.
Proof.
  intros Hstar. apply dispatch_related; [reflexivity |].
  intros pending w. apply closing_agrees, Hstar.
Qed.

Lemma alike_refl x : alike x x.
Proof. repeat split. Qed.

(** On two paths neither or both of which decode, the closing layers
    answer with the same status and headers. *)
Lemma closing_alike r1 r2 pending w :
  decodable (req_path r1) = decodable (req_path r2) ->
  alike (dispatch (closing_layers handlers) pending r1 w)
        (dispatch (closing_layers handlers) pending r2 w).
Proof.
  intros Hdec. destruct pending as [err |].
  - rewrite !closing_pending. apply alike_refl.
  - rewrite !closing_none_cases. unfold decode_failure. rewrite Hdec.
    destruct (decodable (req_path r2)); [apply alike_refl |].
    rewrite !final_handler_error. unfold express_logged.
    destruct (String.eqb _ "test"); repeat split.
Qed.

Lemma alike_handled stack r1 r2 w :
  alike (dispatch stack None r1 (begin_exchange w))
        (dispatch stack None r2 (begin_exchange w)) ->
  res_status (fst (serve_with stack r1 w)) = res_status (fst (serve_with stack r2 w))
  /\ res_headers (fst (serve_with stack r1 w)) = res_headers (fst (serve_with stack r2 w))
  /\ same_process (snd (serve_with stack r1 w)) (snd (serve_with stack r2 w)).
Proof.
  unfold serve_with. rewrite !finish_fst, !finish_world. cbn [res_status res_headers].
  intros (Hs & Hh & Hp). repeat split; try assumption; apply Hp.
Qed.

Lemma routes_split : routes = (take 5 routes ++ closing_layers handlers)%list.
Proof. reflexivity. Qed.

Lemma app_split : app = (before_closing ++ closing_layers handlers)%list.
Proof. reflexivity. Qed.

Ltac agree := split; [reflexivity | split; [reflexivity | intros _; intros; reflexivity]].

(** X1. The Origin header of a request changes nothing: the response and
    every effect of the exchange are the same without it or with another. *)
Theorem origin_is_ignored req origin w :
  handle (with_origin origin req) w = handle req w.
Proof.
  unfold handle, serve_with. rewrite app_split.
  apply (f_equal finish), dispatch_agrees; [reflexivity |].
  unfold before_closing, app, middleware, routes, routes_of.
  cbn [take Datatypes.app]. each_layer; agree.
Qed.

(** For a HEAD request the layers run as for the GET request for the
    same path, and write the same on [res]. *)
Lemma head_runs_like_get req w :
  req_method req = HEAD ->
  handle req w = handle (with_method GET req) w.
Proof.
  intros Hm. unfold handle, serve_with. rewrite app_split.
  apply (f_equal finish), dispatch_agrees; [reflexivity |].
  unfold before_closing, app, middleware, routes, routes_of.
  cbn [take Datatypes.app].
  each_layer; unfold layer_agrees;
    cbn [layer_pattern pattern_match decode_failure with_method req_path req_method];
    rewrite ?Hm; (split; [reflexivity | split; [reflexivity | intros _; intros]]);
    try reflexivity.
  - rewrite !cors_run. unfold is_preflight. rewrite Hm. reflexivity.
  - unfold static_uploads. rewrite Hm. reflexivity.
Qed.

(** X2. A HEAD request is served like the GET request for the same path,
    without the body: the same layers run with the same effects, and what
    is sent is the status and the headers of the GET response and no
    body. *)
Theorem head_is_served_like_get req w :
  req_method req = HEAD ->
  on_the_wire req (fst (handle req w))
  = without_body (on_the_wire (with_method GET req) (fst (handle (with_method GET req) w)))
  /\ res_body (on_the_wire req (fst (handle req w))) = BEmpty
  /\ snd (handle req w) = snd (handle (with_method GET req) w).
Proof.
  intros Hm. rewrite (head_runs_like_get req w Hm).
  unfold on_the_wire. rewrite Hm. repeat split.
Qed.

Lemma lower_ascii_idempotent c : lower_ascii (lower_ascii c) = lower_ascii c.
Proof. destruct c as [[] [] [] [] [] [] [] []]; reflexivity. Qed.

Lemma lower_idempotent s : lower (lower s) = lower s.
Proof.
  induction s as [| c s IH]; [reflexivity |].
  cbn [lower]. rewrite lower_ascii_idempotent, IH. reflexivity.
Qed.

Lemma advance_lower st c : advance st (lower_ascii c) = advance st c.
Proof. destruct st; destruct c as [[] [] [] [] [] [] [] []]; reflexivity. Qed.

Lemma scan_lower s : forall st, scan st (lower s) = scan st s.
Proof.
  induction s as [| c s IH]; intros st; [reflexivity |].
  cbn [lower scan]. rewrite advance_lower.
  destruct (advance st c); [apply IH | reflexivity].
Qed.

(** Whether a path decodes does not depend on the case of its letters. *)
Lemma decodable_lower s : decodable (lower s) = decodable s.
Proof. apply scan_lower. Qed.

Lemma lowered_agrees req :
  mount_match "/uploads" (req_path req) = false ->
  Forall (layer_agrees (with_path (lower (req_path req)) req) req) before_closing.
Proof.
  intros Hup. unfold before_closing, app, middleware, routes, routes_of.
  cbn [take Datatypes.app].
  each_layer; unfold layer_agrees;
    cbn [layer_pattern pattern_match decode_failure with_path req_path req_method];
    unfold route_path_match, mount_match; rewrite ?lower_idempotent;
    (split; [reflexivity | split; [reflexivity | intros Hhit; intros]]); try reflexivity.
  unfold mount_match in Hup. rewrite Hup in Hhit. discriminate Hhit.
Qed.

(** X3. Outside the uploads directory the letter case of the path does not
    matter: the request with its path in lower case gets the same status
    and headers and leaves the process in the same state, and where the
    path decodes it is served in the same way altogether, body and console
    included. (For a path that does not decode, the error Express reports
    quotes the path as it was sent.) *)
Theorem path_case_is_ignored req w :
  mount_match "/uploads" (req_path req) = false ->
  (decodable (req_path req) = true ->
   handle (with_path (lower (req_path req)) req) w = handle req w)
  /\ res_status (fst (handle (with_path (lower (req_path req)) req) w))
     = res_status (fst (handle req w))
  /\ res_headers (fst (handle (with_path (lower (req_path req)) req) w))
     = res_headers (fst (handle req w))
  /\ same_process (snd (handle (with_path (lower (req_path req)) req) w))
       (snd (handle req w)).
Proof.
  intros Hup. split.
  - intros Hdec. unfold handle, serve_with. rewrite app_split.
    apply (f_equal finish), dispatch_agrees; [| apply lowered_agrees, Hup].
    unfold decode_failure. cbn [with_path req_path].
    rewrite decodable_lower, Hdec. reflexivity.
  - unfold handle. apply alike_handled. rewrite app_split.
    apply dispatch_related; [apply alike_refl | | apply lowered_agrees, Hup].
    intros pending w'. apply closing_alike. apply decodable_lower.
Qed.

(** ** One trailing slash *)

Lemma append_cons c s t : String c s ++ t = String c (s ++ t).
Proof. reflexivity. Qed.

Lemma lower_append s t : lower (s ++ t) = lower s ++ lower t.
Proof.
  induction s as [| c s IH]; [reflexivity |].
  rewrite append_cons. cbn [lower]. rewrite IH, append_cons. reflexivity.
Qed.

Lemma lower_ascii_slash c : Ascii.eqb (lower_ascii c) "/" = Ascii.eqb c "/".
Proof. destruct c as [[] [] [] [] [] [] [] []]; reflexivity. Qed.

Lemma ends_with_slash_lower s : ends_with_slash (lower s) = ends_with_slash s.
Proof.
  induction s as [| c s IH]; [reflexivity |].
  destruct s as [| c' s']; [cbn; apply lower_ascii_slash |].
  cbn [lower ends_with_slash] in *. exact IH.
Qed.

Lemma ends_with_slash_append s : ends_with_slash (s ++ "/") = true.
Proof.
  induction s as [| c s IH]; [reflexivity |].
  rewrite append_cons. destruct (s ++ "/") eqn:Hs.
  - destruct s; discriminate Hs.
  - cbn [ends_with_slash] in *. exact IH.
Qed.

Lemma append_slash_inj s t : s ++ "/" = t ++ "/" -> s = t.
Proof.
  revert t. induction s as [| c s IH]; intros [| d t] Heq;
    rewrite ?append_cons in Heq; change ("" ++ "/") with "/" in Heq.
  - reflexivity.
  - injection Heq as _ Hrest. destruct t; discriminate Hrest.
  - injection Heq as _ Hrest. destruct s; discriminate Hrest.
  - injection Heq as -> Hrest. f_equal. apply IH, Hrest.
Qed.

Lemma eqb_append_slash s t : String.eqb (s ++ "/") (t ++ "/") = String.eqb s t.
Proof.
  destruct (String.eqb_spec s t) as [-> | Hne].
  - apply String.eqb_refl.
  - apply String.eqb_neq. intros Heq. apply Hne, append_slash_inj, Heq.
Qed.

Lemma eqb_slash_mismatch s t :
  ends_with_slash s <> ends_with_slash t -> String.eqb s t = false.
Proof. intros Hne. apply String.eqb_neq. intros ->. apply Hne. reflexivity. Qed.

Lemma route_path_match_slash pattern path :
  ends_with_slash (lower pattern) = false -> ends_with_slash path = false ->
  route_path_match pattern (path ++ "/") = route_path_match pattern path.
Proof.
  intros Hq Hp. unfold route_path_match. rewrite lower_append.
  change (lower "/") with "/".
  rewrite eqb_append_slash.
  rewrite (eqb_slash_mismatch (lower path ++ "/") (lower pattern))
    by (rewrite ends_with_slash_append, Hq; discriminate).
  rewrite (eqb_slash_mismatch (lower path) (lower pattern ++ "/"))
    by (rewrite ends_with_slash_append, ends_with_slash_lower, Hp; discriminate).
  rewrite orb_false_r. reflexivity.
Qed.

Lemma mount_core_slash q :
  ends_with_slash q = false ->
  forall p, mount_core q (p ++ "/") = mount_core q p.
Proof.
  unfold mount_core. induction q as [| a q IH]; intros Hq p.
  - destruct p as [| b p]; reflexivity.
  - destruct p as [| b p].
    + change ("" ++ "/") with "/". cbn. destruct (ascii_dec a "/"); [| reflexivity].
      destruct q; [subst a; discriminate Hq | reflexivity].
    + rewrite append_cons. cbn [String.prefix String.length drop_chars].
      destruct (ascii_dec a b); [| reflexivity].
      apply IH. destruct q; [reflexivity | exact Hq].
Qed.

Lemma mount_match_slash pattern path :
  ends_with_slash (lower (without_trailing_slash pattern)) = false ->
  mount_match pattern (path ++ "/") = mount_match pattern path.
Proof.
  intros Hq. unfold mount_match. rewrite lower_append.
  apply (mount_core_slash _ Hq).
Qed.

Lemma scan_slash s : forall st, scan st (s ++ "/") = scan st s.
Proof.
  induction s as [| c s IH]; intros st.
  - change ("" ++ "/") with "/". destruct st as [[| n] lo hi | n lo hi | n lo hi d]; reflexivity.
  - rewrite append_cons. cbn [scan]. destruct (advance st c); [apply IH | reflexivity].
Qed.

(** Nor on a slash added at its end. *)
Lemma decodable_slash s : decodable (s ++ "/") = decodable s.
Proof. apply scan_slash. Qed.

Lemma slashed_agrees req :
  ends_with_slash (req_path req) = false ->
  mount_match "/uploads" (req_path req) = false ->
  Forall (layer_agrees (with_path (req_path req ++ "/") req) req) before_closing.
Proof.
  intros Hend Hup. unfold before_closing, app, middleware, routes, routes_of.
  cbn [take Datatypes.app].
  each_layer; unfold layer_agrees;
    cbn [layer_pattern pattern_match decode_failure with_path req_path req_method];
    rewrite ?route_path_match_slash, ?mount_match_slash by (assumption || reflexivity);
    (split; [reflexivity | split; [reflexivity | intros Hhit; intros]]); try reflexivity.
  rewrite Hup in Hhit. discriminate Hhit.
Qed.

(** X4. Outside the uploads directory one slash added at the end of the
    path changes nothing: the request gets the same status and headers and
    leaves the process in the same state, and where the path decodes it is
    served in the same way altogether, body and console included. (For a
    path that does not decode, the error Express reports quotes the path as
    it was sent.) *)
Theorem trailing_slash_is_ignored req w :
  ends_with_slash (req_path req) = false ->
  mount_match "/uploads" (req_path req) = false ->
  (decodable (req_path req) = true ->
   handle (with_path (req_path req ++ "/") req) w = handle req w)
  /\ res_status (fst (handle (with_path (req_path req ++ "/") req) w))
     = res_status (fst (handle req w))
  /\ res_headers (fst (handle (with_path (req_path req ++ "/") req) w))
     = res_headers (fst (handle req w))
  /\ same_process (snd (handle (with_path (req_path req ++ "/") req) w))
       (snd (handle req w)).
Proof.
  intros Hend Hup. split.
  - intros Hdec. unfold handle, serve_with. rewrite app_split.
    apply (f_equal finish), dispatch_agrees; [| apply slashed_agrees; assumption].
    unfold decode_failure. cbn [with_path req_path].
    rewrite decodable_slash, Hdec. reflexivity.
  - unfold handle. apply alike_handled. rewrite app_split.
    apply dispatch_related; [apply alike_refl | | apply slashed_agrees; assumption].
    intros pending w'. apply closing_alike. apply decodable_slash.
Qed.

(** ** The endpoints and their methods *)

(** X5. A GET of /api/health is answered 200 with status OK, the instant of
    the request as timestamp and the environment label, which is NODE_ENV
    or 'development' when NODE_ENV is unset or empty; the world is left as
    it was. *)
Theorem health_reports_the_environment req w :
  is_for GET "/api/health" req ->
  exists body,
    dispatch routes None req w = ((200, BJson body), w)
    /\ get body "status" = VStr "OK"
    /\ get body "timestamp" = VStr (req_time_iso req)
    /\ get body "environment" = VStr (environment_label (env w)).
Proof.
  intros Hfor.
  rewrite (dispatch_endpoint handlers GET "/api/health" health) by (simpl; auto).
  unfold health, gets, res_json, mbind, M_bind, mret, M_ret, continue.
  eexists. split; [reflexivity |]. cbn.
  repeat split. unfold environment_label, or_default.
  destruct (NODE_ENV (env w)) as [[| c s] |]; reflexivity.
Qed.

Lemma endpoint_never_404 m path h req w :
  In (m, path) endpoints ->
  endpoint_handler handlers m path = Some h ->
  is_for m path req ->
  fst (fst (dispatch routes None req w)) <> 404.
Proof.
  intros Hin Hh Hfor. unfold routes.
  rewrite (dispatch_endpoint handlers m path h) by assumption.
  simpl in Hin.
  destruct Hin as [Heq | [Heq | [Heq | [Heq | [Heq | []]]]]];
    inversion Heq; subst; cbn in Hh; inversion Hh; subst; clear Heq Hh;
    unfold health, welcome, projects, students, contact, res_json, console_log,
      modify, gets, mbind, M_bind, mret, M_ret, continue;
    try discriminate.
  destruct (req_body w); try (rewrite closing_pending; discriminate);
    match goal with
    | |- context [if ?b then _ else _] => destruct b
    end; discriminate.
Qed.

(** X6. What the API advertises is there: each entry of the welcome
    message names a method and a path that are registered as an endpoint,
    each path listed by the 404 answer is the path of an endpoint, and a
    request for a registered endpoint is never answered 404. *)
Theorem advertised_routes_are_served :
  (forall req w, is_for GET "/api" req ->
     exists body,
       dispatch routes None req w = ((200, BJson body), w)
       /\ items_of (get body "endpoints") <> []
       /\ Forall (fun item => exists m path,
                    advertised item = Some (m, path) /\ In (m, path) endpoints)
                 (items_of (get body "endpoints")))
  /\ Forall (fun item => exists m path, item = VStr path /\ In (m, path) endpoints)
       (items_of (get not_found_body "availableRoutes"))
  /\ (forall m path req w,
        In (m, path) endpoints -> is_for m path req ->
        fst (fst (dispatch routes None req w)) <> 404).
Proof.
  split; [| split].
  - intros req w Hfor.
    rewrite (dispatch_endpoint handlers GET "/api" welcome) by (simpl; auto).
    eexists. split; [reflexivity |]. split; [discriminate |].
    repeat constructor; eexists _, _; (split; [reflexivity | simpl; auto 10]).
  - repeat constructor; eexists _, _; (split; [reflexivity | simpl; auto 10]).
  - intros m path req w Hin Hfor.
    assert (Hh : exists h, endpoint_handler handlers m path = Some h).
    { simpl in Hin.
      destruct Hin as [Heq | [Heq | [Heq | [Heq | [Heq | []]]]]];
        inversion Heq; subst; eexists; reflexivity. }
    destruct Hh as [h Hh]. eapply endpoint_never_404; eassumption.
Qed.

(** ** What the middleware answers by itself *)

Lemma admitted_world_fresh req w :
  env (admitted_world req w) = env w
  /\ console (admitted_world req w) = console w
  /\ uploads (admitted_world req w) = uploads w
  /\ req_body (admitted_world req w) = VUndefined
  /\ out_headers (admitted_world req w) = [].
Proof. unfold admitted_world. destruct (under_api req); repeat split. Qed.

Lemma downstream_cors req w :
  downstream req w
  = if is_preflight req
    then finish ((204, BEmpty),
                 with_headers (out_headers w ++ cors_headers (env w)
                               ++ preflight_headers req)%list w)
    else finish (dispatch past_cors None req (after_cors w)).
Proof.
  unfold downstream, past_limiter, past_cors. cbn [Datatypes.app].
  rewrite dispatch_step by reflexivity. cbn [pattern_match decode_failure]. rewrite cors_run.
  destruct (is_preflight req); cbn [continue]; [reflexivity |].
  rewrite app_nil_r. reflexivity.
Qed.

Lemma past_cors_rejected_entity req w err :
  req_payload req = BadJson err \/ req_payload req = BadForm err ->
  exists w', dispatch past_cors None req w
             = ((500, BJson (error_body (env w) err)), error_logged err w')
             /\ console w' = console w /\ out_headers w' = out_headers w.
Proof.
  intros Hpay. unfold past_cors. cbn [Datatypes.app].
  rewrite dispatch_step by reflexivity. cbn [pattern_match decode_failure]. rewrite json_parser_run.
  destruct Hpay as [Hpay | Hpay]; rewrite Hpay; cbn [continue].
  - rewrite 2 dispatch_skip_pending. unfold routes. rewrite dispatch_routes_pending.
    exists w. repeat split.
  - rewrite dispatch_step by reflexivity. cbn [pattern_match decode_failure]. rewrite urlencoded_parser_run, Hpay.
    cbn [continue]. rewrite dispatch_skip_pending. unfold routes.
    rewrite dispatch_routes_pending.
    eexists. split; [reflexivity |]. split; reflexivity.
Qed.

(** X8. An entity the JSON or urlencoded parser rejects is answered 500 by
    the error-handling middleware, on every path and under every method but
    OPTIONS, whatever status the parser's error carries; the stack trace is
    logged and no route handler runs. *)
Theorem rejected_entity_gets_500 req w err :
  rejected req w = false ->
  is_preflight req = false ->
  req_payload req = BadJson err \/ req_payload req = BadForm err ->
  fst (handle req w)
  = mkResponse 500 (cors_headers (env w)) (BJson (error_body (env w) err))
  /\ console (snd (handle req w))
     = (console w ++ [Stderr "❌ Error:" (VStr (err_stack err))])%list.
Proof.
  intros Hadm Hpre Hpay. rewrite handle_limiter, Hadm, downstream_cors, Hpre.
  destruct (admitted_world_fresh req w) as (He & Hc & _ & _ & Hh).
  destruct (past_cors_rejected_entity req (after_cors (admitted_world req w)) err Hpay)
    as (w' & -> & Hc' & Hh').
  rewrite finish_fst, finish_world. cbn [fst snd].
  change (out_headers (error_logged err w')) with (out_headers w').
  change (console (error_logged err w'))
    with (console w' ++ [Stderr "❌ Error:" (VStr (err_stack err))])%list.
  rewrite Hh', Hc'. cbn [after_cors with_headers out_headers console env].
  rewrite Hh, He, Hc. split; reflexivity.
Qed.

(** X9. A preflight (OPTIONS) that the limiter lets through is answered by
    the CORS stage itself, on every path: 204 with an empty body, the
    allowed origin, credentials and methods, and the requested headers
    reflected; no body is parsed, no handler runs, nothing is logged. *)
Theorem preflight_stops_at_cors req w :
  is_preflight req = true ->
  rejected req w = false ->
  fst (handle req w)
  = mkResponse 204 (cors_headers (env w) ++ preflight_headers req)%list BEmpty
  /\ console (snd (handle req w)) = console w
  /\ req_body (snd (handle req w)) = VUndefined.
Proof.
  intros Hpre Hadm. rewrite handle_limiter, Hadm, downstream_cors, Hpre.
  destruct (admitted_world_fresh req w) as (He & Hc & _ & Hb & Hh).
  rewrite finish_fst, finish_world.
  cbn [fst snd with_headers out_headers console req_body].
  rewrite Hh, He, Hc, Hb. repeat split.
Qed.

(** ** The uploads directory *)

Lemma under_uploads_shape path :
  mount_match "/uploads" path = true ->
  exists rest, lower path = String "/" (String "u" rest).
Proof.
  unfold mount_match. intros Hm. apply andb_true_iff in Hm as [Hm _].
  change (lower (without_trailing_slash "/uploads")) with "/uploads" in Hm.
  destruct (lower path) as [| c1 [| c2 rest]]; cbn [String.prefix] in Hm;
    try discriminate Hm.
  - destruct (ascii_dec "/" c1); discriminate Hm.
  - destruct (ascii_dec "/" c1) as [<- |]; [| discriminate Hm].
    destruct (ascii_dec "u" c2) as [<- |]; [| discriminate Hm].
    exists rest. reflexivity.
Qed.

Lemma under_uploads_not_api req :
  mount_match "/uploads" (req_path req) = true -> under_api req = false.
Proof.
  intros Hm. destruct (under_uploads_shape _ Hm) as [rest Hp].
  unfold under_api, mount_match. rewrite Hp. reflexivity.
Qed.

Lemma under_uploads_no_endpoint req :
  mount_match "/uploads" (req_path req) = true -> path_of_no_endpoint req.
Proof.
  intros Hm. destruct (under_uploads_shape _ Hm) as [rest Hp].
  unfold path_of_no_endpoint, endpoints.
  repeat constructor; unfold route_path_match; rewrite Hp; reflexivity.
Qed.

Lemma body_or_empty_parsed b :
  body_or_empty b <> VUndefined /\ body_or_empty b <> VNull.
Proof.
  unfold body_or_empty. destruct (to_boolean b) eqn:Hb.
  - destruct b; try discriminate Hb; split; discriminate.
  - split; discriminate.
Qed.

Lemma parsers_pass req w :
  accepted_entity (req_payload req) ->
  json_parser req w = (Next, snd (json_parser req w))
  /\ urlencoded_parser req (snd (json_parser req w))
     = (Next, snd (urlencoded_parser req (snd (json_parser req w))))
  /\ parsed (snd (urlencoded_parser req (snd (json_parser req w)))).
Proof.
  intros Hok. rewrite json_parser_run, urlencoded_parser_run.
  destruct (req_payload req) as [| v | v | e | e]; try contradiction;
    cbn [snd fst]; (split; [reflexivity | split; [reflexivity |]]);
    unfold parsed; cbn [with_body req_body].
  - apply body_or_empty_parsed.
  - apply body_or_empty_parsed.
  - destruct v; try discriminate Hok; split; discriminate.
Qed.

(** The stack behind the parsers, once they let the request through. *)
Lemma past_cors_parsed req w :
  accepted_entity (req_payload req) ->
  dispatch past_cors None req w
  = dispatch (Regular (Mount "/uploads") static_uploads :: routes) None req
      (snd (urlencoded_parser req (snd (json_parser req w)))).
Proof.
  intros Hok. destruct (parsers_pass req w Hok) as (Hj & Hu & _).
  unfold past_cors. cbn [Datatypes.app].
  rewrite dispatch_step by reflexivity. cbn [pattern_match decode_failure]. rewrite Hj. cbn [continue].
  rewrite dispatch_step by reflexivity. cbn [pattern_match decode_failure]. rewrite Hu. reflexivity.
Qed.

Lemma past_cors_passes req w :
  entity_rejected (req_payload req) = false ->
  dispatch past_cors None req w
  = dispatch (Regular (Mount "/uploads") static_uploads :: routes) None req
      (snd (urlencoded_parser req (snd (json_parser req w)))).
Proof.
  intros Hok. unfold past_cors. cbn [Datatypes.app].
  rewrite dispatch_step by reflexivity. cbn [pattern_match]. rewrite json_parser_run.
  destruct (req_payload req) eqn:Hpay; try discriminate Hok; cbn [continue snd];
    rewrite dispatch_step by reflexivity; cbn [pattern_match];
    rewrite urlencoded_parser_run, Hpay; reflexivity.
Qed.

(** A request that is neither turned away by the limiter, nor a preflight,
    nor rejected by a parser comes to the static files and the routes. *)
Lemma handle_past_parsers req w :
  rejected req w = false ->
  is_preflight req = false ->
  entity_rejected (req_payload req) = false ->
  handle req w
  = finish (dispatch (Regular (Mount "/uploads") static_uploads :: routes) None req
              (after_parsers req (admitted_world req w))).
Proof.
  intros Hadm Hpre Hok.
  rewrite handle_limiter, Hadm, downstream_cors, Hpre, past_cors_passes by assumption.
  reflexivity.
Qed.

Lemma after_parsers_uploads req w : uploads (after_parsers req w) = uploads w.
Proof.
  unfold after_parsers. rewrite json_parser_run, urlencoded_parser_run.
  destruct (req_payload req); reflexivity.
Qed.

Lemma static_file req w content :
  req_method req = GET \/ req_method req = HEAD ->
  uploads w !! req_path req = Some (File content) ->
  static_uploads req w = (Respond 200 (BFile content), w).
Proof.
  intros Hm Hfile. unfold static_uploads, gets, mbind, M_bind.
  destruct Hm as [-> | ->]; rewrite Hfile; reflexivity.
Qed.

Lemma static_passes req w :
  mount_match "/uploads" (req_path req) = true ->
  static_answers req w = false ->
  static_uploads req w = (Next, w).
Proof.
  unfold static_answers, static_uploads, gets, mbind, M_bind. intros -> Hno.
  destruct (req_method req); try reflexivity; cbn in Hno |- *;
    (destruct (uploads w !! req_path req) as [found |]; [| reflexivity]);
    rewrite bool_decide_eq_true_2 in Hno by eauto; discriminate Hno.
Qed.

Lemma behind_static req w :
  static_answers req w = false ->
  dispatch (Regular (Mount "/uploads") static_uploads :: routes) None req w
  = dispatch routes None req w.
Proof.
  intros Hno. rewrite dispatch_step by reflexivity. cbn [pattern_match].
  destruct (mount_match "/uploads" (req_path req)) eqn:Hup; [| reflexivity].
  rewrite static_passes by assumption. reflexivity.
Qed.

Lemma static_answers_admitted req w :
  static_answers req (after_parsers req (admitted_world req w)) = static_answers req w.
Proof.
  unfold static_answers. rewrite after_parsers_uploads.
  destruct (admitted_world_fresh req w) as (_ & _ & -> & _). reflexivity.
Qed.

(** ** The fallback seen through the whole pipeline *)

Lemma on_the_wire_response req s hs b :
  on_the_wire req (mkResponse s hs b)
  = mkResponse s hs (if is_head req then BEmpty else b).
Proof. unfold on_the_wire, is_head. destruct (req_method req); reflexivity. Qed.

(** What reaches the fallback is answered 404 and leaves the console as it
    was. *)
Lemma fallback_end_to_end req w :
  rejected req w = false ->
  is_preflight req = false ->
  entity_rejected (req_payload req) = false ->
  static_answers req w = false ->
  unmatched req ->
  decodable (req_path req) = true ->
  fst (handle req w) = mkResponse 404 (cors_headers (env w)) (BJson not_found_body)
  /\ console (snd (handle req w)) = console w.
Proof.
  intros Hadm Hpre Hok Hstatic Hun Hdec.
  rewrite handle_past_parsers by assumption.
  rewrite behind_static by (rewrite static_answers_admitted; exact Hstatic).
  rewrite unmatched_dispatch by assumption.
  rewrite finish_fst, finish_world. cbn [fst snd].
  destruct (after_parsers_keeps req (admitted_world req w)) as (_ & -> & ->).
  destruct (admitted_world_fresh req w) as (-> & -> & _ & _ & ->).
  split; reflexivity.
Qed.



(** ** The endpoints and their methods, through the whole pipeline *)

Lemma endpoint_path_outside_uploads m path p :
  In (m, path) endpoints -> route_path_match path p = true ->
  mount_match "/uploads" p = false.
Proof.
  intros Hin Hp. apply route_path_match_spec in Hp. unfold mount_match. simpl in Hin.
  destruct Hin as [Heq | [Heq | [Heq | [Heq | [Heq | []]]]]];
    inversion Heq; subst; destruct Hp as [-> | ->]; reflexivity.
Qed.

Lemma endpoint_path_decodable m path p :
  In (m, path) endpoints -> route_path_match path p = true -> decodable p = true.
Proof.
  intros Hin Hp. apply route_path_match_spec in Hp.
  rewrite <- decodable_lower. simpl in Hin.
  destruct Hin as [Heq | [Heq | [Heq | [Heq | [Heq | []]]]]];
    inversion Heq; subst; destruct Hp as [-> | ->]; reflexivity.
Qed.

Lemma other_method_unmatched m path req :
  In (m, path) endpoints ->
  route_path_match path (req_path req) = true ->
  method_match m (req_method req) = false ->
  unmatched req.
Proof.
  intros Hin Hp Hm. apply route_path_match_spec in Hp.
  unfold unmatched, endpoints. simpl in Hin.
  destruct Hin as [Heq | [Heq | [Heq | [Heq | [Heq | []]]]]];
    inversion Heq; subst; clear Heq;
    destruct Hp as [Hp | Hp];
    repeat constructor; unfold pattern_match, route_path_match;
    rewrite Hp, ?Hm; try reflexivity;
    destruct (req_method req); try discriminate Hm; reflexivity.
Qed.

(** X7. An endpoint answers only its own method (and HEAD where it is
    registered for GET): a request for the path of an endpoint under any
    other method but OPTIONS, which the CORS stage answers, gets the 404
    answer of the fallback once the limiter lets it through and no parser
    rejects its entity (to a HEAD request it is sent without its body); no
    handler runs and nothing is logged. *)
Theorem other_method_gets_404 m path req w :
  In (m, path) endpoints ->
  route_path_match path (req_path req) = true ->
  method_match m (req_method req) = false ->
  is_preflight req = false ->
  rejected req w = false ->
  entity_rejected (req_payload req) = false ->
  on_the_wire req (fst (handle req w))
  = mkResponse 404 (cors_headers (env w))
      (if is_head req then BEmpty else BJson not_found_body)
  /\ console (snd (handle req w)) = console w.
Proof.
  intros Hin Hp Hm Hpre Hadm Hok.
  destruct (fallback_end_to_end req w) as [Hres Hlog]; try assumption.
  - unfold static_answers.
    rewrite (endpoint_path_outside_uploads m path) by assumption. reflexivity.
  - eapply other_method_unmatched; eassumption.
  - eapply endpoint_path_decodable; eassumption.
  - rewrite Hres, on_the_wire_response. split; [reflexivity | exact Hlog].
Qed.

(** ** The uploads directory, through the whole pipeline *)

(** X10. What [express.static] finds as a file for a GET or HEAD under
    /uploads is answered with status 200 and the CORS headers, and sent
    with its content (to a HEAD, without), whatever the limiter has
    counted for the address: the uploads directory is outside the
    limiter's mount, its requests are not counted, and nothing is
    logged. *)
Theorem uploaded_file_is_served req w content :
  req_method req = GET \/ req_method req = HEAD ->
  mount_match "/uploads" (req_path req) = true ->
  entity_rejected (req_payload req) = false ->
  uploads w !! req_path req = Some (File content) ->
  on_the_wire req (fst (handle req w))
  = mkResponse 200 (cors_headers (env w)) (if is_head req then BEmpty else BFile content)
  /\ hits (snd (handle req w)) = hits w
  /\ console (snd (handle req w)) = console w.
Proof.
  intros Hm Hup Hok Hfile.
  assert (Hpre : is_preflight req = false).
  { unfold is_preflight. destruct Hm as [-> | ->]; reflexivity. }
  assert (Hadm : rejected req w = false).
  { unfold rejected. rewrite under_uploads_not_api by assumption. reflexivity. }
  rewrite handle_past_parsers by assumption.
  rewrite dispatch_step by reflexivity. cbn [pattern_match]. rewrite Hup.
  rewrite (static_file req _ content)
    by (try assumption; rewrite after_parsers_uploads;
        destruct (admitted_world_fresh req w) as (_ & _ & -> & _); exact Hfile).
  rewrite finish_fst, finish_world. cbn [continue fst snd].
  destruct (after_parsers_keeps req (admitted_world req w)) as (_ & -> & ->).
  destruct (admitted_world_fresh req w) as (-> & -> & _ & _ & ->).
  assert (Hhits : hits (after_parsers req (admitted_world req w)) = hits w).
  { unfold after_parsers, admitted_world.
    rewrite json_parser_run, urlencoded_parser_run, under_uploads_not_api by assumption.
    destruct (req_payload req); reflexivity. }
  rewrite Hhits. unfold on_the_wire, is_head.
  destruct Hm as [-> | ->]; repeat split.
Qed.

(** X11. Under /uploads, what [express.static] does not answer falls
    through to the fallback: a method other than GET and HEAD (OPTIONS
    apart, which the CORS stage answers), or a path under which it finds
    nothing to serve, gets the 404 answer (a HEAD request without its
    body), provided no parser rejects the entity and the path decodes. *)
Theorem missing_upload_gets_404 req w :
  is_preflight req = false ->
  mount_match "/uploads" (req_path req) = true ->
  entity_rejected (req_payload req) = false ->
  decodable (req_path req) = true ->
  uploads w !! req_path req = None
  \/ (req_method req <> GET /\ req_method req <> HEAD) ->
  on_the_wire req (fst (handle req w))
  = mkResponse 404 (cors_headers (env w))
      (if is_head req then BEmpty else BJson not_found_body).
Proof.
  intros Hpre Hup Hok Hdec Hmiss.
  destruct (fallback_end_to_end req w) as [Hres _]; try assumption;
    [| | | rewrite Hres; apply on_the_wire_response].
  - unfold rejected. rewrite under_uploads_not_api by assumption. reflexivity.
  - unfold static_answers. rewrite Hup.
    destruct Hmiss as [-> | [Hg Hh]].
    + rewrite bool_decide_eq_false_2 by (intros [? ?]; discriminate).
      apply andb_false_r.
    + destruct (req_method req); try contradiction; reflexivity.
  - apply path_of_no_endpoint_unmatched, under_uploads_no_endpoint, Hup.
Qed.

(** ** Forms *)

(** X12. An object sent as a urlencoded form is read like the same object
    sent as JSON: the two requests get the same response and have the same
    effects, on every path. *)
Theorem form_is_read_like_json req w fields :
  handle (with_payload (FormPayload (VObj fields)) req) w
  = handle (with_payload (JsonPayload (VObj fields)) req) w.
Proof.
  rewrite !handle_limiter.
  change (rejected (with_payload (FormPayload (VObj fields)) req) w)
    with (rejected (with_payload (JsonPayload (VObj fields)) req) w).
  destruct (rejected _ w); [reflexivity |].
  change (admitted_world (with_payload (FormPayload (VObj fields)) req) w)
    with (admitted_world (with_payload (JsonPayload (VObj fields)) req) w).
  rewrite !downstream_cors.
  change (is_preflight (with_payload (FormPayload (VObj fields)) req))
    with (is_preflight (with_payload (JsonPayload (VObj fields)) req)).
  destruct (is_preflight _); [reflexivity |].
  rewrite !past_cors_parsed by reflexivity.
  rewrite !json_parser_run, !urlencoded_parser_run.
  cbn [with_payload req_payload snd].
  apply (f_equal finish).
  change (Regular (Mount "/uploads") static_uploads :: routes)
    with ((Regular (Mount "/uploads") static_uploads :: take 5 routes)
          ++ closing_layers handlers)%list.
  apply dispatch_agrees; [reflexivity |]. unfold routes, routes_of. cbn [take].
  each_layer; agree.
Qed.

(** ** What is never answered *)





Lemma dispatch_answers prefix :
  Forall layer_answers prefix ->
  forall pending req w,
    answer_kind req
      (fst (fst (dispatch (prefix ++ closing_layers handlers)%list pending req w)))
      (snd (fst (dispatch (prefix ++ closing_layers handlers)%list pending req w))).
Proof.
  induction 1 as [| layer rest Hlayer _ IH]; intros pending req w.
  - cbn [Datatypes.app]. destruct pending as [err |].
    + rewrite closing_pending. cbn. auto 10.
    + destruct (decodable (req_path req)) eqn:Hdec.
      * rewrite closing_none by assumption. cbn. auto 10.
      * rewrite closing_undecodable, final_handler_error by assumption.
        cbn [fst snd]. destruct (String.eqb _ "production"); cbn; rewrite Hdec; auto.
  - cbn [Datatypes.app]. rewrite dispatch_cons.
    destruct (pattern_match (layer_pattern layer) req); [| apply IH].
    destruct (decode_failure (layer_pattern layer) req); [apply IH |].
    destruct layer as [p h | p h], pending as [err |]; simpl in Hlayer; try apply IH.
    + unfold mbind, M_bind. destruct (h req w) as [[s b | | e] w1] eqn:Hrun.
      * apply (Hlayer _ _ _ _ _ Hrun).
      * apply IH.
      * apply IH.
    + unfold mbind, M_bind. destruct (h err req w) as [[s b | | e] w1] eqn:Hrun.
      * apply (Hlayer _ _ _ _ _ _ Hrun).
      * apply IH.
      * apply IH.
Qed.

Lemma contact_cases_parsed req w :
  parsed w ->
  contact req w = (Respond 400 (BJson fields_required_body), w)
  \/ contact req w = (Respond 200 (BJson contact_ok_body), contact_logged w).
Proof.
  intros Hparsed.
  destruct (falsy (get (req_body w) "name")) eqn:H1;
    [left; apply (contact_rejects req w "name"); simpl; auto |].
  destruct (falsy (get (req_body w) "email")) eqn:H2;
    [left; apply (contact_rejects req w "email"); simpl; auto |].
  destruct (falsy (get (req_body w) "subject")) eqn:H3;
    [left; apply (contact_rejects req w "subject"); simpl; auto |].
  destruct (falsy (get (req_body w) "message")) eqn:H4;
    [left; apply (contact_rejects req w "message"); simpl; auto 6 |].
  right. apply contact_accepts.
  intros k Hk. simpl in Hk.
  destruct Hk as [<- | [<- | [<- | [<- | []]]]]; assumption.
Qed.

Lemma contact_cases req w :
  (exists err, contact req w = (Throw err, w))
  \/ contact req w = (Respond 400 (BJson fields_required_body), w)
  \/ contact req w = (Respond 200 (BJson contact_ok_body), contact_logged w).
Proof.
  destruct (req_body w) eqn:Hb;
    try (right; apply contact_cases_parsed; unfold parsed; rewrite Hb;
         split; discriminate);
    left; unfold contact, gets, mbind, M_bind; rewrite Hb; eexists; reflexivity.
Qed.

Ltac answers :=
  unfold layer_answers; intros;
  match goal with
  | Hrun : _ = (Respond _ _, _) |- _ =>
      unfold helmet, compression, json_parser, urlencoded_parser, static_uploads,
        health, welcome, projects, students, contact, res_json, console_log,
        modify, gets, mbind, M_bind, mret, M_ret in Hrun;
      repeat match type of Hrun with
             | context [match ?x with _ => _ end] => destruct x
             | context [if ?b then _ else _] => destruct b
             end;
      inversion Hrun; subst; cbn; auto 10
  end.

Lemma before_closing_answers : Forall layer_answers before_closing.
Proof.
  unfold before_closing, app, middleware, routes, routes_of, handlers.
  cbn [take Datatypes.app]. each_layer; try solve [answers].
  all: unfold layer_answers; intros req w s b w' Hrun.
  - rewrite limiter_run in Hrun.
    destruct (max <? _)%nat; inversion Hrun; subst; cbn; auto 10.
  - rewrite cors_run in Hrun.
    destruct (is_preflight req); inversion Hrun; subst; reflexivity.
  - unfold static_uploads, gets, mbind, M_bind, mret, M_ret in Hrun.
    destruct (req_method req); try discriminate Hrun;
      destruct (uploads w !! req_path req) as [[content | location] |];
      inversion Hrun; subst; cbn; eauto.
  - change (contact req w = (Respond s b, w')) in Hrun.
    destruct (contact_cases req w) as [[err Hc] | [Hc | Hc]]; rewrite Hc in Hrun;
      inversion Hrun; subst; cbn; auto 10.
Qed.

(** X14. Every response is one of these: a JSON body with status 200,
    400, 404, 429 or 500, a file with status 200, the empty answer 204 to a
    preflight, the redirect 301 to a directory of the uploads, or the 400
    page of the framework's final handler, which is reached only for a
    path that does not decode and then shows the URIError of the router
    (its reason phrase alone in production). That is what the layers write;
    to a HEAD request it is sent without the body. *)
Theorem answers_are_the_applications_own req w :
  answer_kind req (res_status (fst (handle req w))) (res_body (fst (handle req w)))
  /\ on_the_wire req (fst (handle req w))
     = (if is_head req then without_body (fst (handle req w)) else fst (handle req w)).
Proof.
  split.
  - unfold handle, serve_with. rewrite finish_fst, app_split. cbn [res_status res_body].
    apply dispatch_answers, before_closing_answers.
  - unfold on_the_wire, is_head. destruct (req_method req); reflexivity.
Qed.

(** ** The console *)

Lemma logs_nothing w w' : console w' = console w -> logs_at_most_one w w'.
Proof.
  intros Hsame. exists []. rewrite app_nil_r. repeat split; auto.
Qed.

Lemma logs_one w line :
  known_line line -> logs_at_most_one w (with_console (console w ++ [line]) w).
Proof.
  intros Hknown. exists [line]. split; [reflexivity |]. split; [reflexivity |].
  repeat constructor. exact Hknown.
Qed.

Lemma dispatch_logs prefix :
  Forall layer_logs prefix ->
  forall pending req w,
    logs_at_most_one w (snd (dispatch (prefix ++ closing_layers handlers)%list pending req w)).
Proof.
  induction 1 as [| layer rest Hlayer _ IH]; intros pending req w.
  - cbn [Datatypes.app]. destruct pending as [err |].
    + rewrite closing_pending. apply logs_one. split; [reflexivity | eauto].
    + destruct (decodable (req_path req)) eqn:Hdec.
      * rewrite closing_none by assumption. apply logs_nothing. reflexivity.
      * rewrite closing_undecodable, final_handler_error by assumption.
        unfold express_logged. cbn [snd].
        destruct (String.eqb _ "test"); [apply logs_nothing; reflexivity |].
        apply logs_one. eexists. reflexivity.
  - cbn [Datatypes.app]. rewrite dispatch_cons.
    destruct (pattern_match (layer_pattern layer) req); [| apply IH].
    destruct (decode_failure (layer_pattern layer) req); [apply IH |].
    destruct layer as [p h | p h], pending as [err |]; simpl in Hlayer; try apply IH.
    + unfold mbind, M_bind. specialize (Hlayer req w).
      destruct (h req w) as [[s b | | e] w1]; [exact Hlayer | |].
      * destruct (IH None req w1) as (lines & Hlines & Hlen & Hknown).
        exists lines. rewrite Hlines, Hlayer. repeat split; assumption.
      * destruct (IH (Some e) req w1) as (lines & Hlines & Hlen & Hknown).
        exists lines. rewrite Hlines, Hlayer. repeat split; assumption.
    + unfold mbind, M_bind. specialize (Hlayer err req w).
      destruct (h err req w) as [[s b | | e] w1]; [exact Hlayer | |].
      * destruct (IH None req w1) as (lines & Hlines & Hlen & Hknown).
        exists lines. rewrite Hlines, Hlayer. repeat split; assumption.
      * destruct (IH (Some e) req w1) as (lines & Hlines & Hlen & Hknown).
        exists lines. rewrite Hlines, Hlayer. repeat split; assumption.
Qed.

Lemma before_closing_logs : Forall layer_logs before_closing.
Proof.
  unfold before_closing, app, middleware, routes, routes_of, handlers.
  cbn [take Datatypes.app].
  each_layer; unfold layer_logs; intros.
  - reflexivity.
  - reflexivity.
  - rewrite limiter_run. destruct (max <? _)%nat; [apply logs_nothing |]; reflexivity.
  - rewrite cors_run. destruct (is_preflight req); [apply logs_nothing |]; reflexivity.
  - rewrite json_parser_run. destruct (req_payload req); reflexivity.
  - rewrite urlencoded_parser_run. destruct (req_payload req); reflexivity.
  - unfold static_uploads, gets, mbind, M_bind.
    destruct (req_method req); try reflexivity;
      destruct (uploads w !! _) as [[content | location] |]; try reflexivity;
      apply logs_nothing; reflexivity.
  - apply logs_nothing. reflexivity.
  - apply logs_nothing. reflexivity.
  - apply logs_nothing. reflexivity.
  - apply logs_nothing. reflexivity.
  - change (h_contact _ req w) with (contact req w).
    destruct (contact_cases req w) as [[err ->] | [-> | ->]].
    + reflexivity.
    + apply logs_nothing. reflexivity.
    + eexists. split; [reflexivity |]. split; [reflexivity |].
      repeat constructor.
Qed.

Lemma handle_logs req w : logs_at_most_one w (snd (handle req w)).
Proof.
  unfold handle, serve_with. rewrite finish_world, app_split.
  destruct (dispatch_logs before_closing before_closing_logs None req (begin_exchange w))
    as (lines & Hlines & Hlen & Hknown).
  exists lines. repeat split; assumption.
Qed.

(** X15. The console only grows: serving any sequence of requests leaves
    every earlier line in place and adds at most one line per request, each
    of them the notice of an accepted contact message, which names the
    sender, the address and the subject but never the message, the stack
    trace the error-handling middleware logs, or the line Express itself
    writes for the URIError of a path that does not decode. *)
Theorem console_only_grows reqs :
  forall w,
    exists lines,
      console (world_after w reqs) = (console w ++ lines)%list
      /\ (length lines <= length reqs)%nat
      /\ Forall known_line lines.
Proof.
  induction reqs as [| req rest IH]; intros w.
  - exists []. rewrite app_nil_r. repeat split; auto.
  - cbn [world_after].
    destruct (handle_logs req w) as (first & Hfirst & Hlen1 & Hknown1).
    destruct (IH (snd (handle req w))) as (more & Hmore & Hlen & Hknown).
    exists (first ++ more)%list.
    rewrite Hmore, Hfirst, app_assoc, length_app. cbn [length].
    repeat split; [lia | apply Forall_app; split; assumption].
Qed.

(** ** What no request can touch *)

(** X16. Serving requests changes neither the configuration nor the
    uploads directory, and the limiter's record of an address is changed
    only by that address's own requests under the limiter's mount. *)
Theorem process_state_is_isolated reqs :
  forall w,
    env (world_after w reqs) = env w
    /\ uploads (world_after w reqs) = uploads w
    /\ forall a, seen a reqs = 0%nat -> hits (world_after w reqs) !! a = hits w !! a.
Proof.
  induction reqs as [| req rest IH]; intros w; [repeat split |].
  cbn [world_after].
  destruct (IH (snd (handle req w))) as (He & Hu & Hh).
  destruct (handle_keeps req w) as (He1 & Hu1 & Hh1).
  rewrite He, Hu, He1, Hu1. split; [reflexivity | split; [reflexivity |]].
  intros a Hseen. rewrite seen_cons in Hseen.
  destruct (limited_from a req) eqn:Hlim; [discriminate Hseen |].
  rewrite Hh by exact Hseen. rewrite Hh1.
  unfold limited_from in Hlim. destruct (under_api req); [| reflexivity].
  rewrite andb_true_r in Hlim. apply String.eqb_neq in Hlim.
  apply lookup_insert_ne. exact Hlim.
Qed.

(** ** A contact request without its form *)

(** X17. A POST to /api/contact that carries no entity at all, an empty
    form or a JSON array is answered 400 with the fixed message like any
    incomplete form: the parsers leave an empty object or the array in
    [req.body], the handler finds no field, and nothing is logged. *)
Theorem contact_without_form_gets_400 req w :
  is_for POST "/api/contact" req ->
  rejected req w = false ->
  req_payload req = NoPayload
  \/ req_payload req = FormPayload (VObj [])
  \/ (exists items, req_payload req = JsonPayload (VArr items)) ->
  fst (handle req w) = mkResponse 400 (cors_headers (env w)) (BJson fields_required_body)
  /\ console (snd (handle req w)) = console w.
Proof.
  intros Hfor Hadm Hpay.
  destruct (endpoint_not_uploads POST "/api/contact" req) as [Hpre Hup];
    [simpl; auto 10 | assumption |].
  assert (Hok : match req_payload req with
                | BadJson _ | BadForm _ => False
                | _ => True
                end).
  { destruct Hpay as [-> | [-> | [items ->]]]; exact I. }
  rewrite handle_reaches_routes by (repeat split; assumption).
  rewrite dispatch_contact by assumption.
  destruct (admitted_world_fresh req w) as (He & Hc & _ & Hb & Hh).
  destruct (after_parsers_keeps req (admitted_world req w)) as (He' & Hc' & Hh').
  rewrite (contact_rejects req _ "name").
  - unfold continue. rewrite finish_fst, finish_world. cbn [fst snd].
    rewrite Hh', Hc', Hh, He, Hc. split; reflexivity.
  - unfold parsed, after_parsers. rewrite json_parser_run, urlencoded_parser_run.
    destruct Hpay as [-> | [-> | [items ->]]]; cbn; rewrite ?Hb; split; discriminate.
  - simpl; auto.
  - unfold after_parsers. rewrite json_parser_run, urlencoded_parser_run.
    destruct Hpay as [-> | [-> | [items ->]]]; cbn; rewrite ?Hb; reflexivity.
Qed.

(** ** A request the limiter turns away *)

(** X18. A request the limiter turns away reaches no other stage: the
    answer is the limiter's own, without any header of a later stage, the
    entity is not parsed, no handler runs and nothing is logged. *)
Theorem rejected_request_reaches_nothing req w :
  rejected req w = true ->
  fst (handle req w) = too_many_requests
  /\ console (snd (handle req w)) = console w
  /\ req_body (snd (handle req w)) = VUndefined
  /\ env (snd (handle req w)) = env w.
Proof.
  intros Hrej. rewrite handle_limiter, Hrej. repeat split.
Qed.

(** ** The further statements at work on concrete exchanges *)


Lemma head_is_served_like_get_witness :
  on_the_wire (request HEAD "/api/projects" NoPayload)
    (fst (handle (request HEAD "/api/projects" NoPayload) (boot default_env ∅)))
  = without_body
      (on_the_wire (with_method GET (request HEAD "/api/projects" NoPayload))
         (fst (handle (with_method GET (request HEAD "/api/projects" NoPayload))
                 (boot default_env ∅)))).
Proof.
  apply (head_is_served_like_get (request HEAD "/api/projects" NoPayload)
           (boot default_env ∅)).
  reflexivity.
Defined.

Lemma path_case_is_ignored_witness :
  handle (with_path (lower "/API/Students") (request GET "/API/Students" NoPayload))
    (boot default_env ∅)
  = handle (request GET "/API/Students" NoPayload) (boot default_env ∅).
Proof.
  assert (Hout : mount_match "/uploads" (req_path (request GET "/API/Students" NoPayload))
                 = false) by reflexivity.
  apply (proj1 (path_case_is_ignored (request GET "/API/Students" NoPayload)
                  (boot default_env ∅) Hout)).
  reflexivity.
Defined.

Lemma trailing_slash_is_ignored_witness :
  handle (with_path ("/api/health" ++ "/") (request GET "/api/health" NoPayload))
    (boot default_env ∅)
  = handle (request GET "/api/health" NoPayload) (boot default_env ∅).
Proof.
  assert (Hend : ends_with_slash (req_path (request GET "/api/health" NoPayload)) = false)
    by reflexivity.
  assert (Hout : mount_match "/uploads" (req_path (request GET "/api/health" NoPayload))
                 = false) by reflexivity.
  apply (proj1 (trailing_slash_is_ignored (request GET "/api/health" NoPayload)
                  (boot default_env ∅) Hend Hout)).
  reflexivity.
Defined.

Lemma health_reports_the_environment_witness :
  exists body,
    dispatch routes None (request GET "/api/health" NoPayload) (boot development_env ∅)
    = ((200, BJson body), boot development_env ∅)
    /\ get body "status" = VStr "OK"
    /\ get body "timestamp" = VStr "2023-11-14T22:13:20.000Z"
    /\ get body "environment" = VStr "development".
Proof.
  apply (health_reports_the_environment (request GET "/api/health" NoPayload)
           (boot development_env ∅)).
  split; reflexivity.
Defined.

Lemma advertised_routes_are_served_witness :
  fst (fst (dispatch routes None (request POST "/api/contact" NoPayload)
              (world_with_body contact_form))) <> 404.
Proof.
  apply (proj2 (proj2 advertised_routes_are_served) POST "/api/contact").
  - simpl; auto 10.
  - split; reflexivity.
Defined.

Lemma other_method_gets_404_witness :
  on_the_wire (request GET "/api/contact" NoPayload)
    (fst (handle (request GET "/api/contact" NoPayload) (boot default_env ∅)))
  = mkResponse 404 (cors_headers default_env) (BJson not_found_body).
Proof.
  apply (other_method_gets_404 POST "/api/contact"
           (request GET "/api/contact" NoPayload) (boot default_env ∅)).
  - simpl; auto 10.
  - reflexivity.
  - reflexivity.
  - reflexivity.
  - reflexivity.
  - reflexivity.
Defined.

Lemma rejected_entity_gets_500_witness :
  fst (handle (request PUT "/nowhere" (BadJson sample_error)) (boot default_env ∅))
  = mkResponse 500 (cors_headers default_env)
      (BJson (error_body default_env sample_error)).
Proof.
  apply (rejected_entity_gets_500 (request PUT "/nowhere" (BadJson sample_error))
           (boot default_env ∅) sample_error).
  - reflexivity.
  - reflexivity.
  - left. reflexivity.
Defined.

Lemma preflight_stops_at_cors_witness :
  fst (handle (request OPTIONS "/api/contact" NoPayload) (boot default_env ∅))
  = mkResponse 204
      (cors_headers default_env
       ++ preflight_headers (request OPTIONS "/api/contact" NoPayload))%list
      BEmpty.
Proof.
  apply (preflight_stops_at_cors (request OPTIONS "/api/contact" NoPayload)
           (boot default_env ∅)); reflexivity.
Defined.

Lemma uploaded_file_is_served_witness :
  on_the_wire (request HEAD "/uploads/avatar.png" NoPayload)
    (fst (handle (request HEAD "/uploads/avatar.png" NoPayload) exhausted_upload_world))
  = mkResponse 200 (cors_headers default_env) BEmpty.
Proof.
  apply (uploaded_file_is_served (request HEAD "/uploads/avatar.png" NoPayload)
           exhausted_upload_world "PNG").
  - right. reflexivity.
  - reflexivity.
  - reflexivity.
  - reflexivity.
Defined.

Lemma missing_upload_gets_404_witness :
  on_the_wire (request GET "/uploads/other.png" NoPayload)
    (fst (handle (request GET "/uploads/other.png" NoPayload) world_with_upload))
  = mkResponse 404 (cors_headers default_env) (BJson not_found_body).
Proof.
  apply (missing_upload_gets_404 (request GET "/uploads/other.png" NoPayload)
           world_with_upload).
  - reflexivity.
  - reflexivity.
  - reflexivity.
  - reflexivity.
  - left. reflexivity.
Defined.


Lemma process_state_is_isolated_witness :
  hits (world_after (boot default_env ∅)
          [request GET "/uploads/avatar.png" NoPayload;
           request POST "/api/contact" (JsonPayload contact_form)])
    !! "198.51.100.9"
  = hits (boot default_env ∅) !! "198.51.100.9".
Proof.
  apply (proj2 (proj2 (process_state_is_isolated
                         [request GET "/uploads/avatar.png" NoPayload;
                          request POST "/api/contact" (JsonPayload contact_form)]
                         (boot default_env ∅)))).
  reflexivity.
Defined.

Lemma contact_without_form_gets_400_witness :
  fst (handle (request POST "/api/contact" NoPayload) (boot default_env ∅))
  = mkResponse 400 (cors_headers default_env) (BJson fields_required_body).
Proof.
  apply (contact_without_form_gets_400 (request POST "/api/contact" NoPayload)
           (boot default_env ∅)).
  - split; reflexivity.
  - reflexivity.
  - left. reflexivity.
Defined.

Lemma rejected_request_reaches_nothing_witness :
  fst (handle (request POST "/api/contact" (JsonPayload contact_form)) exhausted_world)
  = too_many_requests.
Proof.
  apply (rejected_request_reaches_nothing
           (request POST "/api/contact" (JsonPayload contact_form)) exhausted_world).
  reflexivity.
Defined.
